(** * labphew: Digilent WaveForms controller and monitor view

  A shallow embedding of
  - [labphew/controller/digilent/waveforms.py] (class [DfwController],
    [enumerate_devices], [print_device_list]) and
  - [labphew/view/monitor_view.py] (class [MonitorWindow]),
  together with the properties of the specification that concern them.

  Conventions.
  - Python floats are idealised as exact rationals ([Q]); rounding is
    outside the model.
  - Python code that mutates objects and may raise runs in a state and
    exception monad [PyM] in which the state outlives an exception, as it
    does in Python.
  - The vendor driver (package [dwf]) is not part of the repository.  Its
    analog-in interface is a store of configuration plus the answers the
    device will give; its analog-out interface is the trace of calls it
    received. *)

From Stdlib Require Import ZArith QArith Qabs Lqa Lia List String Ascii Bool
  DecimalString.
From ExtLib Require Import Structures.Monad Structures.MonadState
  Structures.MonadExc.
Import ListNotations MonadNotation.
Local Open Scope monad_scope.
Local Open Scope Z_scope.

(** ** Python run-time: exceptions, outcomes, the monad *)

Module Py.

Inductive exn : Type :=
| NameError (name : string)
| AttributeError (attr : string)
| KeyError (key : string)
| ZeroDivisionError
| OtherError (what : string).

(** What running a statement sequence yields: a value, a raised exception,
    or (for the polling loop only) an exhausted step budget. *)
Inductive Outcome (A : Type) : Type :=
| Val (a : A)
| Exn (e : exn)
| Fuel.
Arguments Val {A} a.
Arguments Exn {A} e.
Arguments Fuel {A}.

(** The answer of a call that leaves the repository (driver, toolkit). *)
Inductive Reply (A : Type) : Type :=
| Gives (a : A)
| Throws (e : exn).
Arguments Gives {A} a.
Arguments Throws {A} e.

Definition PyM (S A : Type) : Type := S -> Outcome A * S.

Definition pret {S A} (a : A) : PyM S A := fun s => (Val a, s).

Definition pbind {S A B} (m : PyM S A) (k : A -> PyM S B) : PyM S B :=
  fun s =>
    match m s with
    | (Val a, s') => k a s'
    | (Exn e, s') => (Exn e, s')
    | (Fuel, s') => (Fuel, s')
    end.

(** [try: m  except: h] with a bare [except], which catches everything
    that is raised. *)
Definition pcatch {S A} (m : PyM S A) (h : exn -> PyM S A) : PyM S A :=
  fun s =>
    match m s with
    | (Exn e, s') => h e s'
    | r => r
    end.

#[global] Instance Monad_PyM {S} : Monad (PyM S) :=
  {| ret := @pret S; bind := @pbind S |}.

#[global] Instance MonadState_PyM {S} : MonadState S (PyM S) :=
  {| get := fun s => (Val s, s); put := fun s' _ => (Val tt, s') |}.

#[global] Instance MonadExc_PyM {S} : MonadExc exn (PyM S) :=
  {| raise := fun _ e s => (Exn e, s); catch := @pcatch S |}.

Definition update {S} (f : S -> S) : PyM S unit := fun s => (Val tt, f s).

Definition call {S A} (r : Reply A) : PyM S A :=
  match r with
  | Gives a => ret a
  | Throws e => raise e
  end.

(** [logging] levels and records; [args] holds the extra positional
    arguments passed to the logging call. *)
Inductive Level : Type := DEBUG | WARNING | ERROR.

Record LogRecord : Type := mkLog
  { level : Level; msg : string; args : list string }.

Definition is_level (l : Level) (r : LogRecord) : bool :=
  match l, level r with
  | DEBUG, DEBUG | WARNING, WARNING | ERROR, ERROR => true
  | _, _ => false
  end.

Definition count_level (l : Level) (log : list LogRecord) : nat :=
  List.length (filter (is_level l) log).

(** Python's [a > b] on floats, and the two-argument [max(a, b)], which
    keeps [a] unless [b > a]. *)
Definition gt (a b : Q) : bool :=
  match (a ?= b)%Q with Gt => true | _ => false end.

Definition max (a b : Q) : Q := if gt b a then b else a.

End Py.
Import Py.

(** ** controller/digilent/waveforms.py *)

Module Waveforms.

(** *** The driver boundary (package [dwf]) *)

Inductive DwfState : Type :=
| READY | ARMED | DONE | RUNNING | CONFIG | PREFILL | WAIT.

Definition state_ne (a b : DwfState) : bool :=
  match a, b with
  | READY, READY | ARMED, ARMED | DONE, DONE | RUNNING, RUNNING
  | CONFIG, CONFIG | PREFILL, PREFILL | WAIT, WAIT => false
  | _, _ => true
  end.

Inductive Node : Type := CARRIER | FM | AM.
Inductive Func : Type := DC | SINE | SQUARE | RAMP_UP.

(** The analog-in instrument of one device: its parameters, whether an
    acquisition was started, the status it will report at each successive
    poll, and the samples each channel holds. *)
Record AnalogIn : Type := mkAI
  { buffer_size : Z;
    frequency : Q;
    channel_range : Q;
    started : bool;
    polls : nat;
    report : nat -> DwfState;
    samples : Z -> list Q }.

Definition ai_reset (a : AnalogIn) : unit * AnalogIn :=
  (tt, mkAI (buffer_size a) (frequency a) (channel_range a) false
            (polls a) (report a) (samples a)).

Definition bufferSizeSet (n : Z) (a : AnalogIn) : unit * AnalogIn :=
  (tt, mkAI n (frequency a) (channel_range a) (started a)
            (polls a) (report a) (samples a)).

Definition frequencySet (f : Q) (a : AnalogIn) : unit * AnalogIn :=
  (tt, mkAI (buffer_size a) f (channel_range a) (started a)
            (polls a) (report a) (samples a)).

Definition channelRangeSet (channel : Z) (r : Q) (a : AnalogIn)
  : unit * AnalogIn :=
  (tt, mkAI (buffer_size a) (frequency a) r (started a)
            (polls a) (report a) (samples a)).

(** [configure(reconfigure, start)]. *)
Definition ai_configure (reconfigure start : Z) (a : AnalogIn)
  : unit * AnalogIn :=
  (tt, mkAI (buffer_size a) (frequency a) (channel_range a)
            (negb (start =? 0)) (polls a) (report a) (samples a)).

Definition bufferSizeGet (a : AnalogIn) : Z * AnalogIn := (buffer_size a, a).

Definition frequencyGet (a : AnalogIn) : Q * AnalogIn := (frequency a, a).

(** [status(True)]: the device's next report. *)
Definition ai_status (a : AnalogIn) : DwfState * AnalogIn :=
  (report a (polls a),
   mkAI (buffer_size a) (frequency a) (channel_range a) (started a)
        (S (polls a)) (report a) (samples a)).

Definition statusData (channel n : Z) (a : AnalogIn) : list Q * AnalogIn :=
  (firstn (Z.to_nat n) (samples a channel), a).

(** The analog-out instrument is the trace of the calls it received. *)
Inductive AoCall : Type :=
| AoReset
| AoNodeFunctionSet (channel : Z) (node : Node) (func : Func)
| AoNodeOffsetSet (channel : Z) (node : Node) (volt : Q)
| AoConfigure (channel : Z) (start : Z).

(** *** numpy: mean and standard deviation of a sample array

    The mean of an empty array is [nan]; the standard deviation is the
    square root of the mean squared deviation, kept as a root that is not
    evaluated since [Q] has none. *)
Inductive NpFloat : Type :=
| Fin (q : Q)
| Sqrt (q : Q)
| NaN.

Definition Qsum (l : list Q) : Q := fold_right Qplus 0%Q l.

Definition Qmean (l : list Q) : Q :=
  (Qsum l / inject_Z (Z.of_nat (List.length l)))%Q.

Definition np_mean (l : list Q) : NpFloat :=
  match l with
  | [] => NaN
  | _ => Fin (Qmean l)
  end.

Definition np_std (l : list Q) : NpFloat :=
  match l with
  | [] => NaN
  | _ => let m := Qmean l in
         Sqrt (Qmean (map (fun x => Qabs (x - m) * Qabs (x - m))%Q l))
  end.

Inductive PyVal : Type :=
| VNone
| VFloat (x : NpFloat).

(** [t * k] on a tuple. *)
Definition tuple_mul {A} (t : list A) (k : Z) : list A :=
  List.concat (repeat t (Z.to_nat k)).

(** *** class DfwController *)

Record Controller : Type := mkCtl
  { ai : AnalogIn;
    ao : list AoCall;
    _basic_analog_return_std : bool;
    _read_timeout : Q;
    _last_ao0 : Q;
    _last_ao1 : Q;
    _time_stabilized : Q }.

Definition set_ai (a : AnalogIn) (c : Controller) : Controller :=
  mkCtl a (ao c) (_basic_analog_return_std c) (_read_timeout c)
        (_last_ao0 c) (_last_ao1 c) (_time_stabilized c).

Definition set_ao (t : list AoCall) (c : Controller) : Controller :=
  mkCtl (ai c) t (_basic_analog_return_std c) (_read_timeout c)
        (_last_ao0 c) (_last_ao1 c) (_time_stabilized c).

Definition set_basic_analog_return_std (b : bool) (c : Controller)
  : Controller :=
  mkCtl (ai c) (ao c) b (_read_timeout c)
        (_last_ao0 c) (_last_ao1 c) (_time_stabilized c).

Definition set_read_timeout (t : Q) (c : Controller) : Controller :=
  mkCtl (ai c) (ao c) (_basic_analog_return_std c) t
        (_last_ao0 c) (_last_ao1 c) (_time_stabilized c).

Definition set_last_ao0 (v : Q) (c : Controller) : Controller :=
  mkCtl (ai c) (ao c) (_basic_analog_return_std c) (_read_timeout c)
        v (_last_ao1 c) (_time_stabilized c).

Definition set_last_ao1 (v : Q) (c : Controller) : Controller :=
  mkCtl (ai c) (ao c) (_basic_analog_return_std c) (_read_timeout c)
        (_last_ao0 c) v (_time_stabilized c).

Definition set_time_stabilized (t : Q) (c : Controller) : Controller :=
  mkCtl (ai c) (ao c) (_basic_analog_return_std c) (_read_timeout c)
        (_last_ao0 c) (_last_ao1 c) t.

(** What the module-level name [daq] refers to while a method of [self]
    runs.  The name is assigned only under [if __name__ == '__main__'], so
    it is unbound when the module is imported; when bound it is either the
    very object [self] or another controller. *)
Inductive DaqBinding : Type :=
| Unbound
| SelfAlias
| Other (c : Controller).

(** The wall clock: the current time, the number of observations made so
    far, and the time that passes before each observation. *)
Record Clock : Type := mkClock
  { now : Q; obs : nat; elapse : nat -> Q }.

Definition tick (c : Clock) : Clock :=
  mkClock (now c + elapse c (obs c))%Q (S (obs c)) (elapse c).

Record World : Type := mkWorld
  { self : Controller;
    daq : DaqBinding;
    clock : Clock;
    log : list LogRecord }.

Definition set_self (c : Controller) (w : World) : World :=
  mkWorld c (daq w) (clock w) (log w).

Definition set_daq (d : DaqBinding) (w : World) : World :=
  mkWorld (self w) d (clock w) (log w).

Definition set_clock (c : Clock) (w : World) : World :=
  mkWorld (self w) (daq w) c (log w).

Definition set_log (l : list LogRecord) (w : World) : World :=
  mkWorld (self w) (daq w) (clock w) l.

(** [time.time()] *)
Definition time_time : PyM World Q :=
  fun w => let c := tick (clock w) in (Val (now c), set_clock c w).

(** [time.sleep(d)]: at least [d] passes. *)
Definition time_sleep (d : Q) : PyM World unit :=
  fun w =>
    let c := clock w in
    (Val tt,
     set_clock (mkClock (now c + d + elapse c (obs c))%Q (S (obs c)) (elapse c))
               w).

Definition logger (l : Level) (m : string) (a : list string)
  : PyM World unit :=
  update (fun w => set_log (log w ++ [mkLog l m a]) w).

(** Attribute access and method calls on [self] and on [daq]. *)
Definition on_self {A} (f : Controller -> A * Controller) : PyM World A :=
  fun w => let (a, c) := f (self w) in (Val a, set_self c w).

Definition daq_obj (w : World) : option Controller :=
  match daq w with
  | Unbound => None
  | SelfAlias => Some (self w)
  | Other c => Some c
  end.

Definition daq_store (c : Controller) (w : World) : World :=
  match daq w with
  | Unbound => w
  | SelfAlias => set_self c w
  | Other _ => set_daq (Other c) w
  end.

Definition on_daq {A} (f : Controller -> A * Controller) : PyM World A :=
  fun w =>
    match daq_obj w with
    | None => (Exn (NameError "daq"), w)
    | Some c => let (a, c') := f c in (Val a, daq_store c' w)
    end.

Definition via_ai {A} (f : AnalogIn -> A * AnalogIn) (c : Controller)
  : A * Controller :=
  let (a, i) := f (ai c) in (a, set_ai i c).

Definition via_ao (call : AoCall) (c : Controller) : unit * Controller :=
  (tt, set_ao (ao c ++ [call]) c).

Definition field {A} (f : Controller -> A) (c : Controller)
  : A * Controller := (f c, c).

Definition assign (f : Controller -> Controller) (c : Controller)
  : unit * Controller := (tt, f c).

(** [a / b] on floats. *)
Definition truediv (a b : Q) : PyM World Q :=
  if Qeq_bool b 0 then raise ZeroDivisionError else ret (a / b)%Q.

Definition preset_basic_analog (n : Z) (freq range : Q) (return_std : bool)
  : PyM World unit :=
  on_self (via_ao AoReset) ;;
  on_self (via_ai ai_reset) ;;
  on_self (via_ao (AoNodeFunctionSet (-1) CARRIER DC)) ;;
  on_self (via_ao (AoConfigure (-1) 3)) ;;
  on_self (via_ai (bufferSizeSet n)) ;;
  on_self (via_ai (frequencySet freq)) ;;
  on_self (via_ai (channelRangeSet (-1) range)) ;;
  on_self (via_ai (ai_configure 1 0)) ;;
  on_self (via_ao (AoConfigure (-1) 1)).

(** [DfwController.__init__]; [opened] is the driver's answer to opening
    the device.  The attribute [self.logger], assigned first, is the
    module's logger: the object holds no field for it, its records are the
    [log] of the world. *)
Definition __init__ (opened : Reply unit) : PyM World unit :=
  logger DEBUG "" [] ;;
  call opened ;;
  logger DEBUG "" [] ;;
  on_self (assign (set_basic_analog_return_std false)) ;;
  on_self (assign (set_read_timeout 1)) ;;
  on_self (assign (set_last_ao0 0)) ;;
  on_self (assign (set_last_ao1 0)) ;;
  t <- time_time ;;
  on_self (assign (set_time_stabilized t)) ;;
  preset_basic_analog 84 10000 50 false.

Definition stop_analog_out (channel : Z) : PyM World unit :=
  on_self (via_ao (AoConfigure channel 0)).

Definition write_analog (volt : Q) (channel : Z) : PyM World unit :=
  on_self (via_ao (AoNodeOffsetSet channel CARRIER volt)) ;;
  on_self (via_ao (AoConfigure channel 1)) ;;
  (if (channel =? 0) || (channel =? -1) then
     ts <- on_self (field _time_stabilized) ;;
     t <- time_time ;;
     last <- on_self (field _last_ao0) ;;
     on_self (assign (set_time_stabilized
       (Py.max ts (t + 0.013 + 0.005 * Qabs (last - volt))%Q))) ;;
     on_self (assign (set_last_ao0 volt))
   else ret tt) ;;
  (if (channel =? 0) || (channel =? -1) then
     ts <- on_self (field _time_stabilized) ;;
     t <- time_time ;;
     last <- on_self (field _last_ao1) ;;
     on_self (assign (set_time_stabilized
       (Py.max ts (t + 0.013 + 0.005 * Qabs (last - volt))%Q))) ;;
     on_self (assign (set_last_ao1 volt))
   else ret tt).

Definition wait_for_stabilization : PyM World Q :=
  ts <- on_self (field _time_stabilized) ;;
  t <- time_time ;;
  let wait := (ts - t)%Q in
  if Py.gt wait 0 then
    time_sleep wait ;;
    ret wait
  else ret 0%Q.

(** The [while] loop of [wait_for_ai_acquisition]; [fuel] bounds the number
    of polls. *)
Fixpoint poll (fuel : nat) (start_timestamp read_timeout : Q)
  : PyM World (option bool) :=
  match fuel with
  | O => fun w => (Fuel, w)
  | S fuel' =>
      st <- on_daq (via_ai ai_status) ;;
      if state_ne st DONE then
        t <- time_time ;;
        if Py.gt t (start_timestamp + read_timeout)%Q then
          logger ERROR "AI read timeout occured" [] ;;
          ret (Some true)
        else poll fuel' start_timestamp read_timeout
      else ret None
  end.

(** Returns [Some true] for Python's [True] and [None] for [None]. *)
Definition wait_for_ai_acquisition (fuel : nat) (start_timestamp : option Q)
  : PyM World (option bool) :=
  start <- match start_timestamp with
           | None => time_time
           | Some t => ret t
           end ;;
  n <- on_self (via_ai bufferSizeGet) ;;
  f <- on_self (via_ai frequencyGet) ;;
  q <- truediv (inject_Z n) f ;;
  let read_timeout := (1.9 + q)%Q in
  poll fuel start read_timeout.

Definition truthy (r : option bool) : bool :=
  match r with
  | Some b => b
  | None => false
  end.

Definition read_analog (fuel : nat) : PyM World (list PyVal) :=
  on_daq (via_ai (ai_configure 0 1)) ;;
  timed_out <- wait_for_ai_acquisition fuel None ;;
  if truthy timed_out then
    flag <- on_self (field _basic_analog_return_std) ;;
    ret (tuple_mul [VNone; VNone] (1 + Z.b2z flag))
  else
    buf <- on_daq (via_ai bufferSizeGet) ;;
    c0 <- on_daq (via_ai (statusData 0 buf)) ;;
    c1 <- on_daq (via_ai (statusData 1 buf)) ;;
    flag <- on_self (field _basic_analog_return_std) ;;
    if flag then
      ret [VFloat (np_mean c0); VFloat (np_mean c1);
           VFloat (np_std c0); VFloat (np_std c1)]
    else
      ret [VFloat (np_mean c0); VFloat (np_mean c1)].

(** *** Module-level functions: device inventory *)

Definition __name__ : string := "labphew.controller.digilent.waveforms".

Definition nl : string := String (ascii_of_nat 10) EmptyString.

(** [str(i)] for a non-negative integer. *)
Definition str_nat (i : nat) : string := NilEmpty.string_of_uint (Nat.to_uint i).

(** [{'ch': n, 'buf': b}], what the local [ch] lambda builds. *)
Record ChBuf : Type := mkChBuf { ch : Z; buf : Z }.

Record Config : Type := mkConfig
  { cfg_ai : ChBuf; cfg_ao : ChBuf; cfg_di : ChBuf; cfg_do : ChBuf }.

(** [dev_dict['configs']] is a list of configurations, or a string when the
    device could not be queried. *)
Inductive Configs : Type :=
| ConfigStr (s : string)
| ConfigList (l : list Config).

(** [dev_dict['info']]; the key ['maxAIfreq'] may be absent. *)
Record Info : Type := mkInfo
  { SN : string;
    deviceName : string;
    userName : string;
    maxAIfreq : option Q }.

(** A device entry; [dev] is the enumerated device, named by its index. *)
Record DevDict : Type := mkDevDict
  { info : Info; configs : Configs; dev : nat }.

Inductive DECI : Type :=
| DECIAnalogInChannelCount
| DECIAnalogInBufferSize
| DECIAnalogOutChannelCount
| DECIAnalogOutBufferSize
| DECIDigitalInChannelCount
| DECIDigitalInBufferSize
| DECIDigitalOutChannelCount
| DECIDigitalOutBufferSize.

(** What the driver answers for one enumerated device: each call may give a
    value or throw.  [dev_close] and [dev_close_again] are the two calls of
    [dwf_ai.close()]. *)
Record Device : Type := mkDevice
  { dev_SN : Reply string;
    dev_deviceName : Reply string;
    dev_userName : Reply string;
    dev_isOpened : Reply bool;
    dev_DwfAnalogIn : Reply unit;
    dev_channelCount : Reply Z;
    dev_frequencyInfo : Reply (Q * Q);
    dev_close : Reply unit;
    dev_FDwfEnumConfig : Reply Z;
    dev_FDwfEnumConfigInfo : nat -> DECI -> Reply Z;
    dev_close_again : Reply unit }.

Record Driver : Type := mkDriver
  { FDwfGetLastErrorMsg : Reply string;
    DwfEnumeration : Reply (list Device) }.

(** The frame of [enumerate_devices]: the module logger's records and the
    local list [devices], which the [except] clause and the final [return]
    see as the loop left it. *)
Record Frame : Type := mkFrame
  { flog : list LogRecord; devices : list DevDict }.

Definition warning (m : string) (a : list string) : PyM Frame unit :=
  update (fun f => mkFrame (flog f ++ [mkLog WARNING m a]) (devices f)).

Definition devices_append (d : DevDict) : PyM Frame unit :=
  update (fun f => mkFrame (flog f) (devices f ++ [d])).

Definition placeholder : string :=
  "Couldn't connect to device for further information".

Definition already_open_msg (i : nat) (sn : string) : string :=
  "Can't connect to device " ++ str_nat i ++ " (" ++ sn
  ++ "), a connection is already open." ++ nl
  ++ "Note that the list was stored in " ++ __name__
  ++ ".devices at the moment of import.".

Definition exception_msg : string :=
  "Exception occured while enumerating devices:" ++ nl.

(** The name of an exception's class, [exc_info()[0]]. *)
Definition exc_type (e : exn) : string :=
  match e with
  | NameError _ => "NameError"
  | AttributeError _ => "AttributeError"
  | KeyError _ => "KeyError"
  | ZeroDivisionError => "ZeroDivisionError"
  | OtherError what => what
  end.

(** [for iCfg in range(0, n_configs)], over the indices still to visit. *)
Fixpoint for_configs (device : Device) (todo : list nat) (acc : list Config)
  : PyM Frame (list Config) :=
  match todo with
  | [] => ret acc
  | iCfg :: rest =>
      aic <- call (dev_FDwfEnumConfigInfo device iCfg DECIAnalogInChannelCount) ;;
      aib <- call (dev_FDwfEnumConfigInfo device iCfg DECIAnalogInBufferSize) ;;
      aoc <- call (dev_FDwfEnumConfigInfo device iCfg DECIAnalogOutChannelCount) ;;
      aob <- call (dev_FDwfEnumConfigInfo device iCfg DECIAnalogOutBufferSize) ;;
      dic <- call (dev_FDwfEnumConfigInfo device iCfg DECIDigitalInChannelCount) ;;
      dib <- call (dev_FDwfEnumConfigInfo device iCfg DECIDigitalInBufferSize) ;;
      doc <- call (dev_FDwfEnumConfigInfo device iCfg DECIDigitalOutChannelCount) ;;
      dob <- call (dev_FDwfEnumConfigInfo device iCfg DECIDigitalOutBufferSize) ;;
      for_configs device rest
        (acc ++ [mkConfig (mkChBuf aic aib) (mkChBuf aoc aob)
                          (mkChBuf dic dib) (mkChBuf doc dob)])
  end.

(** The body of [for i, device in enumerate(devs)] up to, and without, the
    final [devices.append(dev_dict)]. *)
Definition probe (i : nat) (device : Device) : PyM Frame DevDict :=
  sn <- call (dev_SN device) ;;
  dn <- call (dev_deviceName device) ;;
  un <- call (dev_userName device) ;;
  opened <- call (dev_isOpened device) ;;
  if (opened : bool) then
    warning (already_open_msg i sn) [] ;;
    ret (mkDevDict (mkInfo sn dn un None) (ConfigStr placeholder) i)
  else
    call (dev_DwfAnalogIn device) ;;
    channel <- call (dev_channelCount device) ;;
    fi <- call (dev_frequencyInfo device) ;;
    let hzFreq := snd fi in
    call (dev_close device) ;;
    n_configs <- call (dev_FDwfEnumConfig device) ;;
    cfgs <- for_configs device (seq 0 (Z.to_nat n_configs)) [] ;;
    call (dev_close_again device) ;;
    ret (mkDevDict (mkInfo sn dn un (Some hzFreq)) (ConfigList cfgs) i).

Fixpoint for_devices (i : nat) (devs : list Device) : PyM Frame unit :=
  match devs with
  | [] => ret tt
  | device :: rest =>
      dev_dict <- probe i device ;;
      devices_append dev_dict ;;
      for_devices (S i) rest
  end.

Definition enumerate_devices (drv : Driver) : PyM Frame (list DevDict) :=
  update (fun f => mkFrame (flog f) []) ;;
  catch
    (m <- call (FDwfGetLastErrorMsg drv) ;;
     warning m [] ;;
     devs <- call (DwfEnumeration drv) ;;
     for_devices 0 devs)
    (fun e => warning exception_msg [exc_type e]) ;;
  f <- get ;;
  ret (devices f).

(** What [print_device_list] prints, one constructor for each [print]. *)
Inductive Printed : Type :=
| PRule
| PDevice (i : nat)
| PDeviceName (s : string)
| PUserName (s : string)
| PSN (s : string)
| PMaxAIfreq (f : Q)
| PText (s : string)
| PConfigHeader
| PConfigRow (iCfg : nat) (conf : Config)
| PIncompleteNotice.

Fixpoint print_configs (iCfg : nat) (l : list Config) : list Printed :=
  match l with
  | [] => []
  | conf :: rest => PConfigRow iCfg conf :: print_configs (S iCfg) rest
  end.

(** The loop of [print_device_list]; [incomplete] is Python's [False]
    ([Some false]), [True] ([Some true]) or [None]. *)
Fixpoint print_devices (i : nat) (l : list DevDict) (incomplete : option bool)
  : list Printed * option bool :=
  match l with
  | [] => ([], incomplete)
  | device :: rest =>
      let head :=
        [PRule; PDevice i;
         PDeviceName (deviceName (info device));
         PUserName (userName (info device));
         PSN (SN (info device))]
        ++ match maxAIfreq (info device) with
           | Some f => [PMaxAIfreq f]
           | None => []
           end in
      let (body, incomplete') :=
        match configs device with
        | ConfigStr s =>
            ([PText s],
             match incomplete with
             | None => None
             | Some _ => Some true
             end)
        | ConfigList cl => (PConfigHeader :: print_configs 0 cl, incomplete)
        end in
      let (out, final) := print_devices (S i) rest incomplete' in
      (head ++ body ++ out, final)
  end.

(** [cached] is the module-level [devices], filled at import. *)
Definition print_device_list (cached : list DevDict)
  (devices_list : option (list DevDict)) : list Printed :=
  let (l, incomplete) :=
    match devices_list with
    | None => (cached, None)
    | Some l => (l, Some false)
    end in
  let (out, final) := print_devices 0 l incomplete in
  out ++ (if truthy final then [PIncompleteNotice] else []).

(** *** Notions used to state the properties *)

(** The world after one status poll of [daq]'s instrument. *)
Definition polled (d : Controller) (w : World) : World :=
  daq_store (snd (via_ai ai_status d)) w.

Definition timeout_record : LogRecord :=
  mkLog ERROR "AI read timeout occured" [].

(** The clock reading of the [j]-th observation from now on, counting
    from 0. *)
Definition reading (c : Clock) (j : nat) : Q := now (Nat.iter (S j) tick c).

(** The status the device of [d] reports at the [j]-th poll from now on. *)
Definition answer (d : Controller) (j : nat) : DwfState :=
  report (ai d) (polls (ai d) + j).

(** The read timeout the specification derives from the analog-in
    configuration of [self]: [1.9 + buffer_size / sample_frequency]. *)
Definition derived_timeout (w : World) : Q :=
  (1.9 + inject_Z (buffer_size (ai (self w))) / frequency (ai (self w)))%Q.

(** The start timestamp [wait_for_ai_acquisition] measures from, and the
    world once it is fixed: the argument when one is supplied, else the
    clock reading taken on entry. *)
Definition start_of (start_timestamp : option Q) (w : World) : Q :=
  match start_timestamp with
  | Some t => t
  | None => now (tick (clock w))
  end.

Definition after_start (start_timestamp : option Q) (w : World) : World :=
  match start_timestamp with
  | Some _ => w
  | None => set_clock (tick (clock w)) w
  end.

(** *** Scenarios

    A device whose instrument answers [status] at every poll and holds the
    samples [s0] and [s1]; a controller constructed on it by [__init__]
    in a process whose clock starts at [t0] and advances by [dt] before
    each observation, with the module-level name [daq] bound as [binding]. *)
Definition bench (status : DwfState) (s0 s1 : list Q) : AnalogIn :=
  mkAI 8192 100000000 5 false 0 (fun _ => status)
       (fun channel => if channel =? 0 then s0 else s1).

Definition blank (dev : AnalogIn) : Controller := mkCtl dev [] false 0 0 0 0.

Definition constructed (dev : AnalogIn) (binding : DaqBinding) (t0 dt : Q)
  : World :=
  snd (__init__ (Gives tt)
         (mkWorld (blank dev) binding (mkClock t0 0 (fun _ => dt)) [])).

(** A controller that is the module's [daq], on a device that stays busy;
    the clock advances by one second before each observation. *)
Definition busy_world : World :=
  constructed (bench RUNNING [] []) SelfAlias 0 1.

(** Two controllers in one process: [self] sits on a device holding the
    samples 1, 1 and 2, 2, while the module's [daq] is another controller,
    on a device holding 5, 7 and 10, 20.  Both devices report [DONE]. *)
Definition other_device : AnalogIn := bench DONE [5; 7]%Q [10; 20]%Q.

Definition own_device : AnalogIn := bench DONE [1; 1]%Q [2; 2]%Q.

Definition two_controllers : World :=
  constructed own_device
    (Other (self (constructed other_device Unbound 0 1))) 0 1.

(** A controller as an importing program has it: [daq] is unbound. *)
Definition imported : World := constructed own_device Unbound 0 1.

(** The module run as a script: [daq] is the controller itself. *)
Definition script : World := constructed own_device SelfAlias 0 1.

(** An importing program whose controller sits on a device that stays
    busy. *)
Definition busy_imported : World :=
  constructed (bench RUNNING [1; 1]%Q [2; 2]%Q) Unbound 0 1.

(** The own device stays busy while [daq] is another controller, whose
    device is done. *)
Definition busy_own_other_done : World :=
  constructed (bench RUNNING [1; 1]%Q [2; 2]%Q)
    (Other (self (constructed other_device Unbound 0 1))) 0 1.

(** The own device is done while [daq] is another controller, whose
    device stays busy. *)
Definition done_own_other_busy : World :=
  constructed own_device
    (Other (self (constructed (bench RUNNING [] []) Unbound 0 1))) 0 1.

(** A computation on the frame that at most appends to the log, and whose
    outcome does not depend on the frame. *)
Definition log_only {A} (m : PyM Frame A) : Prop :=
  forall f,
    m f = (fst (m (mkFrame [] [])),
           mkFrame (flog f ++ flog (snd (m (mkFrame [] [])))) (devices f)).

(** What probing device [i] yields and what it logs, seen from an empty
    frame. *)
Definition probe_outcome (i : nat) (device : Device) : Outcome DevDict :=
  fst (probe i device (mkFrame [] [])).

Definition probe_log (i : nat) (device : Device) : list LogRecord :=
  flog (snd (probe i device (mkFrame [] []))).

Definition already_open_warning (r : LogRecord) : Prop :=
  exists i sn, r = mkLog WARNING (already_open_msg i sn) [].

Definition is_str (c : Configs) : bool :=
  match c with
  | ConfigStr _ => true
  | ConfigList _ => false
  end.

(** An Analog Discovery 2 that answers every query, with one
    configuration; [opened] tells whether a connection to it is open. *)
Definition discovery2 (opened : bool) : Device :=
  mkDevice (Gives "210321A1B2C3"%string) (Gives "Analog Discovery 2"%string)
           (Gives "lab"%string) (Gives opened) (Gives tt) (Gives 2)
           (Gives (0, 100000000)%Q) (Gives tt) (Gives 1)
           (fun _ _ => Gives 2) (Gives tt).


Definition driver_with (devs : list Device) : Driver :=
  mkDriver (Gives ""%string) (Gives devs).

(** A computation that never runs out of steps. *)
Definition no_fuel {S A} (m : PyM S A) : Prop :=
  forall s, fst (m s) <> Fuel.

(** The configuration [conf] holds what the driver answered for
    configuration [iCfg] of [device]. *)
Definition config_of (device : Device) (iCfg : nat) (conf : Config) : Prop :=
  dev_FDwfEnumConfigInfo device iCfg DECIAnalogInChannelCount
  = Gives (ch (cfg_ai conf))
  /\ dev_FDwfEnumConfigInfo device iCfg DECIAnalogInBufferSize
     = Gives (buf (cfg_ai conf))
  /\ dev_FDwfEnumConfigInfo device iCfg DECIAnalogOutChannelCount
     = Gives (ch (cfg_ao conf))
  /\ dev_FDwfEnumConfigInfo device iCfg DECIAnalogOutBufferSize
     = Gives (buf (cfg_ao conf))
  /\ dev_FDwfEnumConfigInfo device iCfg DECIDigitalInChannelCount
     = Gives (ch (cfg_di conf))
  /\ dev_FDwfEnumConfigInfo device iCfg DECIDigitalInBufferSize
     = Gives (buf (cfg_di conf))
  /\ dev_FDwfEnumConfigInfo device iCfg DECIDigitalOutChannelCount
     = Gives (ch (cfg_do conf))
  /\ dev_FDwfEnumConfigInfo device iCfg DECIDigitalOutBufferSize
     = Gives (buf (cfg_do conf)).

(** The line that opens the block of one device. *)
Definition is_device_line (p : Printed) : bool :=
  match p with
  | PDevice _ => true
  | _ => false
  end.

Definition has_placeholder (l : list DevDict) : bool :=
  existsb (fun d => is_str (configs d)) l.

End Waveforms.

(** ** view/monitor_view.py *)

Module MonitorView.

Definition ThreadId : Type := nat.

(** [QtCore.QTimer] *)
Record QTimer : Type := mkTimer { active : bool; interval : Q }.

(** [QtWidgets.QMessageBox] buttons and [QCloseEvent] *)
Inductive StandardButton : Type := Yes | No.

Record QCloseEvent : Type := mkCloseEvent { accepted : bool }.

Definition accept (e : QCloseEvent) : QCloseEvent := mkCloseEvent true.

Section Window.

(** [labphew.Q_], the constructor of physical quantities, and
    [Quantity.m_as('ms')]; both may raise on text or units they reject. *)
Variable Quantity : Type.
Variable Q_ : string -> Reply Quantity.
Variable m_as_ms : Quantity -> Reply Q.

(** The operator object: [properties] is a dictionary with string keys, of
    which the view uses ['Monitor'] (itself a dictionary of strings) and
    ['time_resolution']. *)
Record Operator : Type := mkOperator
  { properties_Monitor : option (list (string * string));
    properties_time_resolution : option Quantity;
    op_xdata : list Q;
    op_ydata : list Q }.

Record MonitorWindow : Type := mkWindow
  { operator : Operator;
    update_timer : QTimer;
    running_monitor : bool;
    worker_thread : option ThreadId;
    delayLine : string;
    xdata : list Q;
    ydata : list Q;
    p : list Q * list Q }.

(** The process the window lives in: the worker threads that are alive,
    the number of thread objects created so far, and standard output. *)
Record Process : Type := mkProcess
  { window : MonitorWindow;
    alive : list ThreadId;
    created : nat;
    stdout : list string }.

Definition set_window (f : MonitorWindow -> MonitorWindow) (s : Process)
  : Process :=
  mkProcess (f (window s)) (alive s) (created s) (stdout s).

Definition print (line : string) : PyM Process unit :=
  update (fun s => mkProcess (window s) (alive s) (created s)
                             (stdout s ++ [line])).

Definition set_running_monitor (b : bool) (w : MonitorWindow)
  : MonitorWindow :=
  mkWindow (operator w) (update_timer w) b (worker_thread w) (delayLine w)
           (xdata w) (ydata w) (p w).

Definition set_worker_thread (t : ThreadId) (w : MonitorWindow)
  : MonitorWindow :=
  mkWindow (operator w) (update_timer w) (running_monitor w) (Some t)
           (delayLine w) (xdata w) (ydata w) (p w).

Definition set_update_timer (t : QTimer) (w : MonitorWindow)
  : MonitorWindow :=
  mkWindow (operator w) t (running_monitor w) (worker_thread w)
           (delayLine w) (xdata w) (ydata w) (p w).

Definition set_operator (o : Operator) (w : MonitorWindow) : MonitorWindow :=
  mkWindow o (update_timer w) (running_monitor w) (worker_thread w)
           (delayLine w) (xdata w) (ydata w) (p w).

Definition set_delayLine (s : string) (w : MonitorWindow) : MonitorWindow :=
  mkWindow (operator w) (update_timer w) (running_monitor w)
           (worker_thread w) s (xdata w) (ydata w) (p w).

Definition set_data (x y : list Q) (w : MonitorWindow) : MonitorWindow :=
  mkWindow (operator w) (update_timer w) (running_monitor w)
           (worker_thread w) (delayLine w) x y (x, y).

Definition set_time_resolution (d : Quantity) (o : Operator) : Operator :=
  mkOperator (properties_Monitor o) (Some d) (op_xdata o) (op_ydata o).

Definition set_Monitor (props : list (string * string)) (o : Operator)
  : Operator :=
  mkOperator (Some props) (properties_time_resolution o)
             (op_xdata o) (op_ydata o).

(** [d[key]] on a dictionary of strings. *)
Fixpoint getitem (d : list (string * string)) (key : string)
  : Reply string :=
  match d with
  | [] => Throws (KeyError key)
  | (k, v) :: rest => if String.eqb k key then Gives v else getitem rest key
  end.

(** Modelled from the spec: the class [WorkThread] of
    [labphew/view/general_worker.py] is not among the sources.  The
    specification calls it a background worker thread that [start] sets
    running and that [terminate] forcibly ends; creating one yields a new
    thread object. *)
Definition WorkThread : PyM Process ThreadId :=
  fun s =>
    (Val (created s),
     mkProcess (window s) (alive s) (S (created s)) (stdout s)).

Definition thread_start (t : ThreadId) : PyM Process unit :=
  update (fun s => mkProcess (window s) (alive s ++ [t]) (created s)
                             (stdout s)).

Definition thread_terminate (t : ThreadId) : PyM Process unit :=
  update (fun s => mkProcess (window s)
                             (filter (fun u => negb (Nat.eqb u t)) (alive s))
                             (created s) (stdout s)).

Definition init (o : Operator) (delay_text : string) : Process :=
  mkProcess (mkWindow o (mkTimer false 0) false None delay_text [] [] ([], []))
            [] 0 [].

Definition update_properties (props : list (string * string))
  : PyM Process unit :=
  update (set_window (fun w => set_operator (set_Monitor props (operator w)) w)) ;;
  text <- call (getitem props "time_resolution") ;;
  update (set_window (set_delayLine text)).

Definition start_monitor : PyM Process unit :=
  s <- get ;;
  if running_monitor (window s) then
    print "Monitor already running"
  else
    update (set_window (set_running_monitor true)) ;;
    delay <- call (Q_ (delayLine (window s))) ;;
    update (set_window
              (fun w => set_operator (set_time_resolution delay (operator w)) w)) ;;
    t <- WorkThread ;;
    update (set_window (set_worker_thread t)) ;;
    thread_start t ;;
    s' <- get ;;
    props <- match properties_Monitor (operator (window s')) with
             | Some d => ret d
             | None => raise (KeyError "Monitor")
             end ;;
    text <- call (getitem props "refresh_time") ;;
    refresh_time <- call (Q_ text) ;;
    ms <- call (m_as_ms refresh_time) ;;
    update (set_window (set_update_timer (mkTimer true ms))).

Definition stop_monitor : PyM Process unit :=
  s <- get ;;
  if negb (running_monitor (window s)) then
    print "Monitor not running"
  else
    update (set_window
              (fun w => set_update_timer
                          (mkTimer false (interval (update_timer w))) w)) ;;
    t <- match worker_thread (window s) with
         | Some t => ret t
         | None => raise (AttributeError "worker_thread")
         end ;;
    thread_terminate t ;;
    update (set_window (set_running_monitor false)).

Definition update_monitor : PyM Process unit :=
  update (set_window
            (fun w => set_data (op_xdata (operator w)) (op_ydata (operator w)) w)).

Definition update_value : PyM Process unit := ret tt.

(** [reply] is the button the user chose in the confirmation dialog. *)
Definition closeEvent (reply : StandardButton) (event : QCloseEvent)
  : PyM Process QCloseEvent :=
  let quit_msg := "Are you sure you want to exit the program?"%string in
  ret (accept event).

(** What can happen to the window: its slots are called, the user edits
    the delay field, the operator publishes new data, and the worker
    thread may end on its own. *)
Inductive Event : Type :=
| StartClicked
| StopClicked
| TimerTimeout
| PropertiesChanged (props : list (string * string))
| DelayEdited (text : string)
| OperatorData (x y : list Q)
| WorkerFinished (t : ThreadId)
| Closing (reply : StandardButton) (event : QCloseEvent).

Definition handle (e : Event) (s : Process) : Process :=
  match e with
  | StartClicked => snd (start_monitor s)
  | StopClicked => snd (stop_monitor s)
  | TimerTimeout => snd (update_monitor s)
  | PropertiesChanged props => snd (update_properties props s)
  | DelayEdited text => set_window (set_delayLine text) s
  | OperatorData x y =>
      set_window
        (fun w => set_operator
                    (mkOperator (properties_Monitor (operator w))
                                (properties_time_resolution (operator w)) x y)
                    w) s
  | WorkerFinished t => snd (thread_terminate t s)
  | Closing reply event => snd (closeEvent reply event s)
  end.

Inductive reachable : Process -> Prop :=
| reach_init o text : reachable (init o text)
| reach_step e s : reachable s -> reachable (handle e s).

Definition active_timers (s : Process) : nat :=
  if active (update_timer (window s)) then 1 else 0.

(** No worker is alive, or the monitor is running and the one live worker
    is the thread the window holds. *)
Definition one_worker (s : Process) : Prop :=
  alive s = []
  \/ (running_monitor (window s) = true
      /\ exists t, worker_thread (window s) = Some t /\ alive s = [t]).

(** While the monitor is not running the update timer is inactive. *)
Definition timer_idle (s : Process) : Prop :=
  running_monitor (window s) = false ->
  active (update_timer (window s)) = false.

(** The monitor claims to run but holds no worker, and nothing is alive
    or ticking. *)
Definition stuck (s : Process) : Prop :=
  running_monitor (window s) = true
  /\ worker_thread (window s) = None
  /\ alive s = []
  /\ active (update_timer (window s)) = false.

(** A click on one of the two buttons. *)
Definition is_click (e : Event) : Prop :=
  e = StartClicked \/ e = StopClicked.

(** The window after a series of events. *)
Definition after (events : list Event) (s : Process) : Process :=
  fold_left (fun st e => handle e st) events s.

End Window.

End MonitorView.

(** * Properties *)

Module PyFacts.

Lemma gt_spec a b : Py.gt a b = true <-> (b < a)%Q.
Proof.
  unfold Py.gt. rewrite Qgt_alt.
  destruct (a ?= b)%Q; split; congruence.
Qed.

Lemma gt_false a b : Py.gt a b = false <-> (a <= b)%Q.
Proof.
  unfold Py.gt. rewrite Qle_alt.
  destruct (a ?= b)%Q; split; congruence.
Qed.

Lemma max_ge_l a b : (a <= Py.max a b)%Q.
Proof.
  unfold Py.max. destruct (Py.gt b a) eqn:E.
  - apply gt_spec in E. lra.
  - lra.
Qed.

Lemma max_ge_r a b : (b <= Py.max a b)%Q.
Proof.
  unfold Py.max. destruct (Py.gt b a) eqn:E.
  - lra.
  - apply gt_false in E. exact E.
Qed.

(** [max(a, b)] is [b] when [b] exceeds [a], and [a] itself otherwise. *)
Lemma max_cases a b :
  ((a < b)%Q /\ Py.max a b = b) \/ ((b <= a)%Q /\ Py.max a b = a).
Proof.
  unfold Py.max. destruct (Py.gt b a) eqn:E.
  - left. apply gt_spec in E. auto.
  - right. apply gt_false in E. auto.
Qed.

End PyFacts.

Module WaveformsFacts.
Import Waveforms PyFacts.

(** *** Reading the monad *)

Lemma state_ne_spec a b : state_ne a b = true <-> a <> b.
Proof. destruct a, b; simpl; split; congruence. Qed.

Lemma on_daq_bound {A} (f : Controller -> A * Controller) w c :
  daq_obj w = Some c ->
  on_daq f w = (Val (fst (f c)), daq_store (snd (f c)) w).
Proof.
  intros H. unfold on_daq. rewrite H. destruct (f c); reflexivity.
Qed.

Lemma on_daq_unbound {A} (f : Controller -> A * Controller) w :
  daq w = Unbound -> on_daq f w = (Exn (NameError "daq"), w).
Proof.
  intros H. unfold on_daq, daq_obj. rewrite H. reflexivity.
Qed.

Lemma daq_obj_store w c c' :
  daq_obj w = Some c -> daq_obj (daq_store c' w) = Some c'.
Proof.
  unfold daq_obj, daq_store. destruct (daq w) eqn:E; simpl; try discriminate.
  - rewrite E. reflexivity.
  - reflexivity.
Qed.

Lemma clock_daq_store c w : clock (daq_store c w) = clock w.
Proof. unfold daq_store. destruct (daq w); reflexivity. Qed.

Lemma log_daq_store c w : log (daq_store c w) = log w.
Proof. unfold daq_store. destruct (daq w); reflexivity. Qed.

(** One turn of the polling loop. *)
Lemma poll_S fuel start to w d :
  daq_obj w = Some d ->
  poll (S fuel) start to w =
    if state_ne (report (ai d) (polls (ai d))) DONE then
      let w1 := set_clock (tick (clock w)) (polled d w) in
      if Py.gt (now (tick (clock w))) (start + to)%Q
      then (Val (Some true), set_log (log w ++ [timeout_record]) w1)
      else poll fuel start to w1
    else (Val None, polled d w).
Proof.
  intros H. cbn [poll]. cbn [bind Monad_PyM]. unfold pbind at 1.
  rewrite (on_daq_bound _ _ _ H). cbn [fst snd via_ai ai_status].
  fold (polled d w).
  destruct (state_ne (report (ai d) (polls (ai d))) DONE); [|reflexivity].
  unfold pbind at 1. unfold time_time at 1.
  rewrite clock_daq_store.
  cbn [fst snd].
  destruct (Py.gt _ _); [|reflexivity].
  cbv [pbind logger update pret ret Monad_PyM].
  cbn [log set_clock]. rewrite log_daq_store. reflexivity.
Qed.

Lemma daq_obj_set_clock c w : daq_obj (set_clock c w) = daq_obj w.
Proof. reflexivity. Qed.

Lemma daq_obj_polled d w :
  daq_obj w = Some d ->
  daq_obj (set_clock (tick (clock w)) (polled d w))
  = Some (snd (via_ai ai_status d)).
Proof.
  intros H. rewrite daq_obj_set_clock. unfold polled.
  apply (daq_obj_store _ _ _ H).
Qed.

Lemma flag_polled d w :
  daq_obj w = Some d ->
  _basic_analog_return_std (self (polled d w))
  = _basic_analog_return_std (self w).
Proof.
  unfold polled, daq_obj, daq_store.
  destruct (daq w); intros H; try reflexivity.
  injection H as <-. reflexivity.
Qed.

Lemma reading_tick c j : reading (tick c) j = reading c (S j).
Proof. unfold reading. rewrite <- Nat.iter_succ_r. reflexivity. Qed.

Lemma answer_polled d j :
  answer (snd (via_ai ai_status d)) j = answer d (S j).
Proof.
  unfold answer. cbn. rewrite Nat.add_succ_r. reflexivity.
Qed.

(** The loop ends with [True] at the first reading beyond the deadline,
    as long as the device has not reported [DONE] by then; it logs the
    timeout once and leaves the fields of [self] alone. *)
Lemma poll_timeout k : forall fuel w d start to,
  daq_obj w = Some d ->
  (k < fuel)%nat ->
  (forall j, (j <= k)%nat -> answer d j <> DONE) ->
  (forall j, (j < k)%nat -> (reading (clock w) j <= start + to)%Q) ->
  (start + to < reading (clock w) k)%Q ->
  exists w',
    poll fuel start to w = (Val (Some true), w')
    /\ log w' = log w ++ [timeout_record]
    /\ _basic_analog_return_std (self w') = _basic_analog_return_std (self w).
Proof.
  induction k as [|k IH]; intros fuel w d start to Hd Hf Hst Hin Hout;
    (destruct fuel as [|fuel]; [lia|]);
    rewrite (poll_S _ _ _ _ _ Hd);
    assert (H0 : state_ne (report (ai d) (polls (ai d))) DONE = true)
      by (apply state_ne_spec; specialize (Hst 0%nat ltac:(lia));
          unfold answer in Hst; rewrite Nat.add_0_r in Hst; exact Hst);
    rewrite H0; cbv zeta.
  - assert (G : Py.gt (now (tick (clock w))) (start + to) = true)
      by (apply gt_spec; exact Hout).
    rewrite G. eexists. split; [reflexivity|]. split.
    + reflexivity.
    + cbn [self set_log set_clock]. apply flag_polled, Hd.
  - assert (G : Py.gt (now (tick (clock w))) (start + to) = false)
      by (apply gt_false; apply (Hin 0%nat); lia).
    rewrite G.
    destruct (IH fuel (set_clock (tick (clock w)) (polled d w))
                 (snd (via_ai ai_status d)) start to) as (w' & E & L & F).
    + apply daq_obj_polled, Hd.
    + lia.
    + intros j Hj. rewrite answer_polled. apply Hst. lia.
    + intros j Hj. cbn [clock set_clock]. rewrite reading_tick.
      apply Hin. lia.
    + cbn [clock set_clock]. rewrite reading_tick. exact Hout.
    + exists w'. split; [exact E|]. split.
      * rewrite L. cbn [log set_clock]. unfold polled.
        rewrite log_daq_store. reflexivity.
      * rewrite F. cbn [self set_clock]. apply flag_polled, Hd.
Qed.

(** The loop ends with [None], logging nothing, at the first poll that
    reports [DONE], as long as no earlier reading was beyond the
    deadline. *)
Lemma poll_done k : forall fuel w d start to,
  daq_obj w = Some d ->
  (k < fuel)%nat ->
  (forall j, (j < k)%nat -> answer d j <> DONE) ->
  (forall j, (j < k)%nat -> (reading (clock w) j <= start + to)%Q) ->
  answer d k = DONE ->
  exists w',
    poll fuel start to w = (Val None, w')
    /\ log w' = log w
    /\ _basic_analog_return_std (self w') = _basic_analog_return_std (self w).
Proof.
  induction k as [|k IH]; intros fuel w d start to Hd Hf Hst Hin Hdone;
    (destruct fuel as [|fuel]; [lia|]);
    rewrite (poll_S _ _ _ _ _ Hd).
  - unfold answer in Hdone. rewrite Nat.add_0_r in Hdone. rewrite Hdone.
    cbn [state_ne]. eexists. split; [reflexivity|]. split.
    + unfold polled. apply log_daq_store.
    + apply flag_polled, Hd.
  - assert (H0 : state_ne (report (ai d) (polls (ai d))) DONE = true)
      by (apply state_ne_spec; specialize (Hst 0%nat ltac:(lia));
          unfold answer in Hst; rewrite Nat.add_0_r in Hst; exact Hst).
    rewrite H0; cbv zeta.
    assert (G : Py.gt (now (tick (clock w))) (start + to) = false)
      by (apply gt_false; apply (Hin 0%nat); lia).
    rewrite G.
    destruct (IH fuel (set_clock (tick (clock w)) (polled d w))
                 (snd (via_ai ai_status d)) start to) as (w' & E & L & F).
    + apply daq_obj_polled, Hd.
    + lia.
    + intros j Hj. rewrite answer_polled. apply Hst. lia.
    + intros j Hj. cbn [clock set_clock]. rewrite reading_tick.
      apply Hin. lia.
    + rewrite answer_polled. exact Hdone.
    + exists w'. split; [exact E|]. split.
      * rewrite L. cbn [log set_clock]. unfold polled.
        apply log_daq_store.
      * rewrite F. cbn [self set_clock]. apply flag_polled, Hd.
Qed.

(** *** [wait_for_ai_acquisition] and [read_analog] *)

Lemma self_unchanged w : set_self (set_ai (ai (self w)) (self w)) w = w.
Proof. destruct w as [[] ? ? ?]. reflexivity. Qed.

Lemma wait_unfold fuel st w :
  ~ (frequency (ai (self w)) == 0)%Q ->
  wait_for_ai_acquisition fuel st w
  = poll fuel (start_of st w) (derived_timeout w) (after_start st w).
Proof.
  intros Hf.
  assert (E : Qeq_bool (frequency (ai (self w))) 0 = false).
  { destruct (Qeq_bool _ _) eqn:E; [|reflexivity].
    apply Qeq_bool_iff in E. contradiction. }
  unfold wait_for_ai_acquisition, start_of, after_start, derived_timeout.
  destruct st as [t|]; cbn [bind Monad_PyM ret];
    unfold pbind, pret, time_time, on_self, via_ai, bufferSizeGet,
      frequencyGet, truediv;
    cbn [self set_clock set_self ai set_ai fst snd clock];
    rewrite ?self_unchanged.
  - destruct w as [[] ? ? ?]. cbn in *. rewrite E. reflexivity.
  - destruct w as [[] ? ? ?]. cbn in *. rewrite E. reflexivity.
Qed.

(** The least index at which a test holds, below one at which it does. *)
Lemma least_true (f : nat -> bool) : forall k,
  f k = true ->
  exists k', (k' <= k)%nat /\ f k' = true
             /\ forall j, (j < k')%nat -> f j = false.
Proof.
  intros k. revert f. induction k as [|k IH]; intros f Hk.
  - exists 0%nat. split; [lia|]. split; [exact Hk|]. intros j Hj. lia.
  - destruct (f 0%nat) eqn:E0.
    + exists 0%nat. split; [lia|]. split; [exact E0|]. intros j Hj. lia.
    + destruct (IH (fun j => f (S j)) Hk) as (k' & Hle & Ht & Hlt).
      exists (S k'). split; [lia|]. split; [exact Ht|].
      intros [|j] Hj; [exact E0|]. apply Hlt. lia.
Qed.

Lemma first_reading_beyond c deadline k :
  (deadline < reading c k)%Q ->
  exists k', (k' <= k)%nat /\ (deadline < reading c k')%Q
             /\ forall j, (j < k')%nat -> (reading c j <= deadline)%Q.
Proof.
  intros H.
  destruct (least_true (fun j => Py.gt (reading c j) deadline) k)
    as (k' & Hle & Ht & Hlt).
  - apply gt_spec. exact H.
  - exists k'. split; [exact Hle|]. split.
    + apply gt_spec. exact Ht.
    + intros j Hj. apply gt_false. apply Hlt. exact Hj.
Qed.

Lemma daq_obj_after_start st w : daq_obj (after_start st w) = daq_obj w.
Proof. destruct st; reflexivity. Qed.

Lemma log_after_start st w : log (after_start st w) = log w.
Proof. destruct st; reflexivity. Qed.

Lemma flag_after_start st w :
  _basic_analog_return_std (self (after_start st w))
  = _basic_analog_return_std (self w).
Proof. destruct st; reflexivity. Qed.

(** Where the module-level [daq] names a controller, the acquisition wait
    measures a timeout of exactly [1.9 + n/f] seconds, [n] and [f] being the buffer size and sample
    frequency of the analog-in configuration, from its start timestamp,
    which is the time of the call when none is supplied.  At the first
    poll at which the elapsed time exceeds the timeout while the device
    is not done it returns [True] (and logs the timeout); at the first
    poll at which the device reports done it returns [None].  With
    [n = 84] and [f = 10000] the timeout is 1.9084 s. *)
Theorem wait_for_ai_acquisition_timeout_rule :
  forall (w : World) (d : Controller) (start_timestamp : option Q)
         (k fuel : nat),
    let start := start_of start_timestamp w in
    let c := clock (after_start start_timestamp w) in
    let timeout :=
      (1.9 + inject_Z (buffer_size (ai (self w))) / frequency (ai (self w)))%Q in
    ~ (frequency (ai (self w)) == 0)%Q ->
    daq_obj w = Some d ->
    (k < fuel)%nat ->
    (forall j, (j < k)%nat ->
               answer d j <> DONE /\ (reading c j - start <= timeout)%Q) ->
    (answer d k <> DONE -> (timeout < reading c k - start)%Q ->
     exists w',
       wait_for_ai_acquisition fuel start_timestamp w = (Val (Some true), w')
       /\ log w' = log w ++ [timeout_record])
    /\ (answer d k = DONE ->
        exists w',
          wait_for_ai_acquisition fuel start_timestamp w = (Val None, w')
          /\ log w' = log w)
    /\ (start_timestamp = None -> start = now (tick (clock w)))
    /\ (buffer_size (ai (self w)) = 84 ->
        (frequency (ai (self w)) == 10000)%Q -> (timeout == 1.9084)%Q).
Proof.
  intros w d st k fuel start c timeout Hf Hd Hk Hbefore.
  assert (Hd' : daq_obj (after_start st w) = Some d)
    by (rewrite daq_obj_after_start; exact Hd).
  assert (Hin : forall j, (j < k)%nat ->
                          (reading c j <= start + derived_timeout w)%Q).
  { intros j Hj. destruct (Hbefore j Hj) as [_ H].
    unfold derived_timeout. fold timeout. lra. }
  repeat split.
  - intros Hnd Hout. rewrite (wait_unfold _ _ _ Hf).
    destruct (poll_timeout k fuel (after_start st w) d start
                (derived_timeout w) Hd' Hk) as (w' & E & L & _).
    + intros j Hj. destruct (proj1 (Nat.lt_eq_cases j k) Hj) as [Hlt | ->].
      * apply (Hbefore j Hlt).
      * exact Hnd.
    + exact Hin.
    + fold c. unfold derived_timeout. fold timeout. lra.
    + exists w'. split; [exact E|]. rewrite L, log_after_start. reflexivity.
  - intros Hdone. rewrite (wait_unfold _ _ _ Hf).
    destruct (poll_done k fuel (after_start st w) d start
                (derived_timeout w) Hd' Hk) as (w' & E & L & _).
    + intros j Hj. apply (Hbefore j Hj).
    + exact Hin.
    + exact Hdone.
    + exists w'. split; [exact E|]. rewrite L, log_after_start. reflexivity.
  - intros ->. reflexivity.
  - intros Hn Hfreq. unfold timeout. rewrite Hn, Hfreq. reflexivity.
Qed.

(** The scenario of the specification: after the default preset (84
    samples at 10 kHz) a device that stays busy makes the wait time out,
    here at the second poll of a clock that advances by one second. *)
Lemma wait_for_ai_acquisition_timeout_rule_witness :
  exists w',
    wait_for_ai_acquisition 2 None busy_world = (Val (Some true), w')
    /\ log w' = log busy_world ++ [timeout_record].
Proof.
  destruct (wait_for_ai_acquisition_timeout_rule
              busy_world (self busy_world) None 1 2) as (A & _).
  - vm_compute. discriminate.
  - reflexivity.
  - lia.
  - intros j Hj. assert (j = 0)%nat as -> by lia. split.
    + vm_compute. discriminate.
    + vm_compute. discriminate.
  - apply A.
    + vm_compute. discriminate.
    + vm_compute. reflexivity.
Defined.

(** Where the module-level [daq] names a controller: when its device
    never reports the acquisition done and the clock passes the deadline,
    [read_analog] raises nothing: it returns
    [(None, None)] when [_basic_analog_return_std] is unset and
    [(None, None, None, None)] when it is set, and logs exactly one
    error. *)
Theorem read_analog_timeout_returns_nones :
  forall (w : World) (d : Controller) (k fuel : nat),
    let start := now (tick (clock w)) in
    daq_obj w = Some d ->
    ~ (frequency (ai (self w)) == 0)%Q ->
    (forall j, (j <= k)%nat -> answer d j <> DONE) ->
    (start + derived_timeout w < reading (tick (clock w)) k)%Q ->
    (k < fuel)%nat ->
    exists w',
      read_analog fuel w
      = (Val (if _basic_analog_return_std (self w)
              then [VNone; VNone; VNone; VNone]
              else [VNone; VNone]), w')
      /\ log w' = log w ++ [timeout_record]
      /\ count_level ERROR (log w') = S (count_level ERROR (log w)).
Proof.
  intros w d k fuel start Hd Hf Hbusy Hlate Hfuel.
  destruct (first_reading_beyond _ _ _ Hlate) as (k' & Hle & Hout & Hin).
  set (dc := snd (via_ai (ai_configure 0 1) d)).
  set (wc := daq_store dc w).
  assert (Hdc : daq_obj wc = Some dc) by (apply (daq_obj_store _ _ _ Hd)).
  assert (Hclock : clock wc = clock w) by apply clock_daq_store.
  assert (Hlog : log wc = log w) by apply log_daq_store.
  assert (Hself : _basic_analog_return_std (self wc)
                  = _basic_analog_return_std (self w)
                  /\ derived_timeout wc = derived_timeout w
                  /\ frequency (ai (self wc)) = frequency (ai (self w))).
  { unfold wc, dc, daq_store, daq_obj, derived_timeout in *.
    destruct (daq w); try discriminate.
    - injection Hd as <-. repeat split.
    - repeat split. }
  destruct Hself as (Hflag & Hto & Hfreq).
  assert (Hf' : ~ (frequency (ai (self wc)) == 0)%Q)
    by (rewrite Hfreq; exact Hf).
  destruct (poll_timeout k' fuel (after_start None wc) dc
              (start_of None wc) (derived_timeout wc))
    as (w' & E & L & F).
  - rewrite daq_obj_after_start. exact Hdc.
  - lia.
  - intros j Hj. unfold dc. apply Hbusy. lia.
  - intros j Hj. cbn [after_start start_of clock set_clock].
    rewrite Hclock, Hto. apply Hin. exact Hj.
  - cbn [after_start start_of clock set_clock]. rewrite Hclock, Hto.
    exact Hout.
  - exists w'.
    assert (R : read_analog fuel w
                = (Val (if _basic_analog_return_std (self w)
                        then [VNone; VNone; VNone; VNone]
                        else [VNone; VNone]), w')).
    { unfold read_analog. cbn [bind Monad_PyM]. unfold pbind at 1.
      rewrite (on_daq_bound _ _ _ Hd). cbn [fst snd]. fold dc. fold wc.
      unfold pbind at 1. rewrite (wait_unfold _ _ _ Hf'), E.
      cbn [truthy]. unfold pbind, on_self, field.
      cbn [fst snd ret pret Monad_PyM].
      rewrite F, flag_after_start, Hflag.
      destruct w' as [[] ? ? ?].
      destruct (_basic_analog_return_std (self w)); reflexivity. }
    split; [exact R|]. split.
    + rewrite L, log_after_start, Hlog. reflexivity.
    + rewrite L, log_after_start, Hlog. unfold count_level.
      rewrite filter_app, length_app. cbn. lia.
Qed.

Lemma read_analog_timeout_returns_nones_witness :
  exists w',
    read_analog 3 busy_world = (Val [VNone; VNone], w')
    /\ log w' = log busy_world ++ [timeout_record]
    /\ count_level ERROR (log w') = S (count_level ERROR (log busy_world)).
Proof.
  assert (Hflag : _basic_analog_return_std (self busy_world) = false)
    by (vm_compute; reflexivity).
  destruct (read_analog_timeout_returns_nones
              busy_world (self busy_world) 1 3) as (w' & E & L & C).
  - reflexivity.
  - vm_compute. discriminate.
  - intros j Hj. vm_compute. discriminate.
  - vm_compute. reflexivity.
  - lia.
  - rewrite Hflag in E. exists w'. split; [exact E|].
    split; [exact L | exact C].
Defined.

(** *** [write_analog] and [wait_for_stabilization] *)

(** Whatever the channel, a write never moves the stabilized-at timestamp
    backwards. *)
Lemma write_analog_time_stabilized_monotone volt channel w :
  (_time_stabilized (self w)
   <= _time_stabilized (self (snd (write_analog volt channel w))))%Q.
Proof.
  unfold write_analog. cbn [bind Monad_PyM ret].
  destruct ((channel =? 0) || (channel =? -1)).
  - cbv [pbind on_self via_ao field assign time_time pret fst snd
         set_self set_clock self set_time_stabilized set_last_ao0
         set_last_ao1 set_ao _time_stabilized _last_ao0 _last_ao1 clock].
    eapply Qle_trans; [apply max_ge_l|]. apply max_ge_l.
  - cbv [pbind on_self via_ao field assign time_time pret fst snd
         set_self set_clock self set_time_stabilized set_last_ao0
         set_last_ao1 set_ao _time_stabilized _last_ao0 _last_ao1 clock].
    apply Qle_refl.
Qed.

(** A write to channel 0 sets the timestamp from channel 0's last voltage
    and stores the voltage for channel 0. *)
Lemma write_analog_channel_0 volt w :
  let w' := snd (write_analog volt 0 w) in
  _last_ao0 (self w') = volt
  /\ (Py.max (_time_stabilized (self w))
             (now (tick (clock w)) + 0.013
              + 0.005 * Qabs (_last_ao0 (self w) - volt))
      <= _time_stabilized (self w'))%Q.
Proof.
  cbv zeta. split.
  - reflexivity.
  - cbn. apply max_ge_l.
Qed.

(** C1.  The claim asks that a write to channel 1 store the voltage as
    channel 1's last voltage and advance the timestamp from it.  The
    second guard of [write_analog] tests channel 0 again, so a write to
    channel 1 reaches neither update: the stored voltage of channel 1, the
    timestamp and the clock are as before, and the write only reaches the
    analog-out instrument.  On a freshly constructed controller,
    [write_analog(-0.7, 1)] leaves [_last_ao1] at 0, while
    [write_analog(1.3, 0)] stores 1.3 for channel 1 as well. *)
Theorem write_analog_channel_1_updates_nothing :
  (forall volt w,
     let w' := snd (write_analog volt 1 w) in
     fst (write_analog volt 1 w) = Val tt
     /\ _last_ao1 (self w') = _last_ao1 (self w)
     /\ _last_ao0 (self w') = _last_ao0 (self w)
     /\ _time_stabilized (self w') = _time_stabilized (self w)
     /\ clock w' = clock w
     /\ ao (self w')
        = (ao (self w) ++ [AoNodeOffsetSet 1 CARRIER volt])
          ++ [AoConfigure 1 1])
  /\ _last_ao1 (self (snd (write_analog (-0.7) 1 script))) = 0%Q
  /\ _time_stabilized (self (snd (write_analog (-0.7) 1 script)))
     = _time_stabilized (self script)
  /\ _last_ao1 (self (snd (write_analog 1.3 0 script))) = 1.3%Q.
Proof.
  split.
  - intros volt w. cbv zeta. repeat split.
  - repeat split.
Qed.



(** *** [read_analog] and the module-level name [daq] *)

(** C2.  The claim asks that [read_analog] work on the instance's own
    analog-in interface.  The method names the module-level [daq] instead
    of [self]: where [daq] is unbound, as in every importing program, the
    read raises [NameError] before touching any device; where [daq] is
    another controller, the read starts the acquisition on that
    controller's instrument and returns the means of its samples (6 and
    15 here, not 1 and 2), leaving the instrument of [self] unstarted. *)
Theorem read_analog_uses_module_level_daq :
  (forall fuel w,
     read_analog fuel (set_daq Unbound w)
     = (Exn (NameError "daq"), set_daq Unbound w))
  /\ fst (read_analog 1 imported) = Exn (NameError "daq")
  /\ fst (read_analog 1 two_controllers)
     = Val [VFloat (np_mean (samples other_device 0));
            VFloat (np_mean (samples other_device 1))]
  /\ started (ai (self (snd (read_analog 1 two_controllers)))) = false
  /\ (daq_obj (snd (read_analog 1 two_controllers))
      = Some (set_ai (snd (ai_status
                             (snd (ai_configure 0 1
                                     (ai (self (constructed other_device
                                                  Unbound 0 1)))))))
                     (self (constructed other_device Unbound 0 1)))).
Proof.
  split; [|split; [|split; [|split]]].
  - intros fuel w. reflexivity.
  - reflexivity.
  - vm_compute. reflexivity.
  - vm_compute. reflexivity.
  - vm_compute. reflexivity.
Qed.

(** C4.  The claim asks that the preset's standard-deviation flag decide
    how many values a successful read returns.  [preset_basic_analog]
    never stores its [return_std] argument: the flag of the controller is
    what it was, the preset with [True] is the preset with [False], and
    after [preset_basic_analog(84, 10000, 50.0, True)] a successful read
    still returns the two means only. *)
Theorem preset_basic_analog_ignores_return_std :
  (forall n freq range return_std w,
     _basic_analog_return_std
       (self (snd (preset_basic_analog n freq range return_std w)))
     = _basic_analog_return_std (self w))
  /\ (forall n freq range w,
        preset_basic_analog n freq range true w
        = preset_basic_analog n freq range false w)
  /\ fst (read_analog 1 (snd (preset_basic_analog 84 10000 50 true script)))
     = Val [VFloat (np_mean (samples own_device 0));
            VFloat (np_mean (samples own_device 1))].
Proof.
  split; [|split].
  - intros n freq range return_std w. reflexivity.
  - intros n freq range w. reflexivity.
  - vm_compute. reflexivity.
Qed.

(** With the flag set on the object itself, a successful read returns the
    two means followed by the two standard deviations. *)
Lemma read_analog_with_flag_returns_four :
  fst (read_analog 1
         (snd (on_self (assign (set_basic_analog_return_std true)) script)))
  = Val [VFloat (np_mean (samples own_device 0));
         VFloat (np_mean (samples own_device 1));
         VFloat (np_std (samples own_device 0));
         VFloat (np_std (samples own_device 1))].
Proof. vm_compute. reflexivity. Qed.

(** *** [enumerate_devices] *)

Lemma log_only_ret {A} (a : A) : log_only (ret a).
Proof.
  intros [l d]. cbn. rewrite app_nil_r. reflexivity.
Qed.

Lemma log_only_call {A} (r : Reply A) : log_only (call r).
Proof.
  intros [l d]. destruct r; cbn; rewrite app_nil_r; reflexivity.
Qed.

Lemma log_only_warning m a : log_only (warning m a).
Proof. intros [l d]. reflexivity. Qed.

Lemma log_only_bind {A B} (m : PyM Frame A) (k : A -> PyM Frame B) :
  log_only m -> (forall a, log_only (k a)) -> log_only (bind m k).
Proof.
  intros Hm Hk f. cbn [bind Monad_PyM]. unfold pbind.
  rewrite (Hm f).
  destruct (m (mkFrame [] [])) as [[a|e|] [lm dm]] eqn:E; cbn [fst snd flog].
  - rewrite (Hk a (mkFrame (flog f ++ lm) (devices f))).
    rewrite (Hk a (mkFrame lm dm)).
    cbn [fst snd flog devices]. rewrite app_assoc. reflexivity.
  - reflexivity.
  - reflexivity.
Qed.

Create HintDb log_only.
#[local] Hint Resolve log_only_ret log_only_call log_only_warning
  log_only_bind : log_only.

Lemma log_only_for_configs device todo : forall acc,
  log_only (for_configs device todo acc).
Proof.
  induction todo as [|iCfg rest IH]; intros acc; cbn [for_configs].
  - apply log_only_ret.
  - repeat (apply log_only_bind; [apply log_only_call | intros ?]).
    apply IH.
Qed.

Lemma log_only_probe i device : log_only (probe i device).
Proof.
  unfold probe.
  apply log_only_bind; [apply log_only_call | intros sn].
  apply log_only_bind; [apply log_only_call | intros dn].
  apply log_only_bind; [apply log_only_call | intros un].
  apply log_only_bind; [apply log_only_call | intros opened].
  destruct opened.
  - auto with log_only.
  - repeat (apply log_only_bind;
            [first [apply log_only_call | apply log_only_for_configs]
            | intros ?]).
    apply log_only_ret.
Qed.

Lemma probe_frame i device f :
  probe i device f
  = (probe_outcome i device,
     mkFrame (flog f ++ probe_log i device) (devices f)).
Proof. apply log_only_probe. Qed.

Ltac step_call :=
  match goal with
  | |- context [call ?r] =>
      let E := fresh "E" in
      destruct r eqn:E; cbn [call]; cbv [bind ret raise Monad_PyM
        MonadExc_PyM pbind pret]; cbn [fst snd]
  end.

Lemma for_configs_frame device todo : forall acc f,
  snd (for_configs device todo acc f) = f.
Proof.
  induction todo as [|iCfg rest IH]; intros acc f.
  - reflexivity.
  - cbn [for_configs]. cbv [bind Monad_PyM pbind].
    repeat (step_call; [|reflexivity]).
    apply IH.
Qed.

(** Probing a device logs nothing, or one warning that a connection to it
    is already open. *)
Lemma probe_log_cases i device :
  probe_log i device = []
  \/ exists sn, probe_log i device = [mkLog WARNING (already_open_msg i sn) []].
Proof.
  unfold probe_log, probe. cbv [bind Monad_PyM pbind].
  do 4 (step_call; [|left; reflexivity]).
  match goal with |- context [if ?b then _ else _] => destruct b end.
  - right. eexists. reflexivity.
  - left. do 5 (step_call; [|reflexivity]).
    match goal with
    | |- context [for_configs ?d ?t ?acc ?f] =>
        pose proof (for_configs_frame d t acc f) as Hf;
        destruct (for_configs d t acc f) as [[cfgs|e|] f']
    end; cbn [snd] in Hf; subst; try reflexivity.
    step_call; reflexivity.
Qed.

(** An entry that carries a string for its configurations carries the
    placeholder. *)
Lemma probe_outcome_placeholder i device entry s :
  probe_outcome i device = Val entry ->
  configs entry = ConfigStr s -> s = placeholder.
Proof.
  unfold probe_outcome, probe. cbv [bind Monad_PyM pbind].
  do 4 (step_call; [|discriminate]).
  match goal with |- context [if ?b then _ else _] => destruct b end.
  - cbn. intros [= <-]. cbn. intros [= <-]. reflexivity.
  - do 5 (step_call; [|discriminate]).
    match goal with
    | |- context [for_configs ?d ?t ?acc ?f] =>
        destruct (for_configs d t acc f) as [[cfgs|e|] f']
    end; try discriminate.
    step_call; [|discriminate].
    intros [= <-]. cbn. discriminate.
Qed.


Lemma no_fuel_bind {S A B} (m : PyM S A) (k : A -> PyM S B) :
  no_fuel m -> (forall a, no_fuel (k a)) -> no_fuel (bind m k).
Proof.
  intros Hm Hk s. cbn [bind Monad_PyM]. unfold pbind.
  specialize (Hm s). destruct (m s) as [[a|e|] s']; cbn [fst] in *.
  - apply Hk.
  - discriminate.
  - exfalso. apply Hm. reflexivity.
Qed.

Lemma no_fuel_call {S A} (r : Reply A) : no_fuel (@call S A r).
Proof. intros s. destruct r; discriminate. Qed.

Lemma no_fuel_ret {S A} (a : A) : no_fuel (ret a : PyM S A).
Proof. intros s. discriminate. Qed.

Lemma no_fuel_update {S} (g : S -> S) : no_fuel (update g).
Proof. intros s. discriminate. Qed.

Lemma no_fuel_for_configs device todo : forall acc,
  no_fuel (for_configs device todo acc).
Proof.
  induction todo as [|iCfg rest IH]; intros acc; cbn [for_configs].
  - apply no_fuel_ret.
  - repeat (apply no_fuel_bind; [apply no_fuel_call | intros ?]).
    apply IH.
Qed.

Lemma no_fuel_probe i device : no_fuel (probe i device).
Proof.
  unfold probe.
  do 4 (apply no_fuel_bind; [apply no_fuel_call | intros ?]).
  match goal with |- context [if ?b then _ else _] => destruct b end.
  - apply no_fuel_bind; [apply no_fuel_update | intros ?].
    apply no_fuel_ret.
  - repeat (apply no_fuel_bind;
            [first [apply no_fuel_call | apply no_fuel_for_configs]
            | intros ?]).
    apply no_fuel_ret.
Qed.

Lemma no_fuel_for_devices devs : forall i, no_fuel (for_devices i devs).
Proof.
  induction devs as [|d rest IH]; intros i; cbn [for_devices].
  - apply no_fuel_ret.
  - apply no_fuel_bind; [apply no_fuel_probe | intros ?].
    apply no_fuel_bind; [apply no_fuel_update | intros ?].
    apply IH.
Qed.

(** The shape of [enumerate_devices]: a [try] whose body cannot run out
    of steps and whose handler only logs, followed by [return devices]. *)
Lemma try_then_return (g : Frame -> Frame) (body : PyM Frame unit) m
      (a : exn -> list string) f :
  no_fuel body ->
  exists entries records,
    bind (update g)
      (fun _ => bind (catch body (fun e => warning m (a e)))
         (fun _ => bind get (fun f' => ret (devices f')))) f
    = (Val entries, mkFrame records entries).
Proof.
  intros Hnf. cbv [bind Monad_PyM pbind catch MonadExc_PyM pcatch].
  unfold update at 1.
  specialize (Hnf (g f)). destruct (body (g f)) as [[[]|e|] [l ds]];
    cbn [fst] in Hnf.
  - cbn. eexists. eexists. reflexivity.
  - cbn. eexists. eexists. reflexivity.
  - exfalso. apply Hnf. reflexivity.
Qed.

(** [enumerate_devices] never raises, whatever the driver answers: it
    returns the list [devices] as the frame holds it. *)
Lemma enumerate_devices_never_raises drv f :
  exists entries records,
    enumerate_devices drv f = (Val entries, mkFrame records entries).
Proof.
  unfold enumerate_devices. apply try_then_return.
  apply no_fuel_bind; [apply no_fuel_call | intros m].
  apply no_fuel_bind; [apply no_fuel_update | intros ?].
  apply no_fuel_bind; [apply no_fuel_call | intros devs].
  apply no_fuel_for_devices.
Qed.




(** *** [print_device_list] *)

Lemma print_configs_no_notice l : forall i,
  ~ In PIncompleteNotice (print_configs i l).
Proof.
  induction l as [|conf rest IH]; intros i; cbn.
  - auto.
  - intros [H|H]; [discriminate | exact (IH _ H)].
Qed.

(** The loop prints no notice itself, and leaves [incomplete] at [None]
    when it started there, else at [True] exactly when it started at
    [True] or met an entry whose configurations are a string. *)
Lemma print_devices_spec l : forall i incomplete,
  snd (print_devices i l incomplete)
  = match incomplete with
    | None => None
    | Some b => Some (b || existsb (fun d => is_str (configs d)) l)
    end
  /\ ~ In PIncompleteNotice (fst (print_devices i l incomplete)).
Proof.
  induction l as [|device rest IH]; intros i incomplete.
  - cbn. split; [|auto]. destruct incomplete as [b|]; [|reflexivity].
    rewrite orb_false_r. reflexivity.
  - cbn [print_devices existsb].
    destruct (configs device) as [str|cl] eqn:Ec; cbn [is_str].
    + destruct (IH (S i) match incomplete with
                         | Some _ => Some true
                         | None => None
                         end) as [Hs Hn].
      destruct (print_devices (S i) rest _) as [out final].
      cbn [fst snd] in *. split.
      * rewrite Hs. destruct incomplete as [b|]; [|reflexivity].
        rewrite orb_true_r. reflexivity.
      * rewrite !in_app_iff. cbn.
        destruct (maxAIfreq (info device)); cbn;
          intuition (try discriminate).
    + destruct (IH (S i) incomplete) as [Hs Hn].
      destruct (print_devices (S i) rest incomplete) as [out final].
      cbn [fst snd] in *. split.
      * exact Hs.
      * rewrite !in_app_iff. cbn.
        pose proof (print_configs_no_notice cl 0%nat).
        destruct (maxAIfreq (info device)); cbn;
          intuition (try discriminate).
Qed.

(** C8.  [print_device_list] prints the incomplete-list notice exactly
    when the caller passed a list and some entry of it carries a string in
    its configuration field; with the cached list (no argument) it never
    prints it.  When printed, the notice is the last line. *)
Theorem print_device_list_notice :
  forall (cached : list DevDict) (devices_list : option (list DevDict)),
    (In PIncompleteNotice (print_device_list cached devices_list)
     <-> exists l, devices_list = Some l
                   /\ Exists (fun d => is_str (configs d) = true) l)
    /\ ~ In PIncompleteNotice (print_device_list cached None)
    /\ exists out,
         ~ In PIncompleteNotice out
         /\ (print_device_list cached devices_list = out
             \/ print_device_list cached devices_list
                = out ++ [PIncompleteNotice]).
Proof.
  intros cached devices_list.
  assert (Hnone : ~ In PIncompleteNotice (print_device_list cached None)).
  { unfold print_device_list.
    destruct (print_devices_spec cached 0%nat None) as [Hs Hn].
    destruct (print_devices 0 cached None) as [out final].
    cbn [fst snd] in *. subst final. cbn. rewrite app_nil_r. exact Hn. }
  split; [|split; [exact Hnone|]].
  - destruct devices_list as [l|].
    + unfold print_device_list.
      destruct (print_devices_spec l 0%nat (Some false)) as [Hs Hn].
      destruct (print_devices 0 l (Some false)) as [out final].
      cbn [fst snd] in *. subst final. cbn [orb truthy].
      rewrite in_app_iff. split.
      * intros [H|H]; [contradiction|].
        exists l. split; [reflexivity|].
        apply Exists_exists.
        destruct (existsb _ l) eqn:E; [|destruct H].
        apply existsb_exists in E. exact E.
      * intros (l' & [= <-] & H). right.
        apply Exists_exists in H. apply existsb_exists in H.
        rewrite H. left. reflexivity.
    + split.
      * intros H. contradiction.
      * intros (l & Hl & _). discriminate.
  - unfold print_device_list.
    destruct devices_list as [l|].
    + destruct (print_devices_spec l 0%nat (Some false)) as [Hs Hn].
      destruct (print_devices 0 l (Some false)) as [out final].
      cbn [fst snd] in *. exists out. split; [exact Hn|].
      destruct (truthy final); [right | left; rewrite app_nil_r];
        reflexivity.
    + destruct (print_devices_spec cached 0%nat None) as [Hs Hn].
      destruct (print_devices 0 cached None) as [out final].
      cbn [fst snd] in *. exists out. split; [exact Hn|].
      destruct (truthy final); [right | left; rewrite app_nil_r];
        reflexivity.
Qed.

(** The cached list and the same list passed explicitly, for a device
    that was already open: only the second prints the notice. *)
Lemma print_device_list_cached_and_explicit :
  let found := snd (enumerate_devices (driver_with [discovery2 true])
                      (mkFrame [] [])) in
  last (print_device_list (devices found) None) PRule = PText placeholder
  /\ last (print_device_list (devices found) (Some (devices found))) PRule
     = PIncompleteNotice.
Proof. split; reflexivity. Qed.

(** *** The timeout path and the module-level name [daq] *)

(** C3.  The claim asks that a read whose device never reports the
    acquisition done return a tuple of [None], log one error and raise
    nothing.  The read and the polling loop name the module-level [daq]
    instead of [self] (the slip of C2).  In an importing program [daq] is
    unbound: the read raises [NameError] at its first statement, whatever
    the device does, and logs no error.  Where [daq] is another
    controller whose device is done, the read on a controller whose own
    device stays busy for ever returns the other device's means and logs
    no error either. *)
Theorem read_analog_timeout_depends_on_daq :
  (forall fuel w,
     read_analog fuel (set_daq Unbound w)
     = (Exn (NameError "daq"), set_daq Unbound w))
  /\ (forall j, answer (self busy_imported) j = RUNNING)
  /\ fst (read_analog 3 busy_imported) = Exn (NameError "daq")
  /\ log (snd (read_analog 3 busy_imported)) = log busy_imported
  /\ (forall j, answer (self busy_own_other_done) j = RUNNING)
  /\ fst (read_analog 3 busy_own_other_done)
     = Val [VFloat (np_mean (samples other_device 0));
            VFloat (np_mean (samples other_device 1))]
  /\ count_level ERROR (log (snd (read_analog 3 busy_own_other_done)))
     = 0%nat.
Proof.
  split; [|split; [|split; [|split; [|split; [|split]]]]].
  - intros fuel w. reflexivity.
  - intros j. reflexivity.
  - reflexivity.
  - reflexivity.
  - intros j. reflexivity.
  - vm_compute. reflexivity.
  - vm_compute. reflexivity.
Qed.

(** C5.  The claim asks that the wait return [True] on a timeout and
    [None] when the device reports done, for every analog-in
    configuration.  The loop polls the module-level [daq] instead of
    [self] (the slip of C2).  With [daq] unbound, as in every importing
    program, the wait returns neither: once the timeout is computed (a
    zero frequency raises [ZeroDivisionError] before) the first test of
    the loop raises [NameError].  Where [daq] is another controller whose
    device stays busy, the wait on a controller whose own device reports
    done at every poll returns [True]. *)
Theorem wait_for_ai_acquisition_depends_on_daq :
  (forall fuel start_timestamp w,
     fst (wait_for_ai_acquisition (S fuel) start_timestamp
            (set_daq Unbound w))
     = if Qeq_bool (frequency (ai (self w))) 0
       then Exn ZeroDivisionError
       else Exn (NameError "daq"))
  /\ fst (wait_for_ai_acquisition 1 None imported) = Exn (NameError "daq")
  /\ (forall j, answer (self done_own_other_busy) j = DONE)
  /\ fst (wait_for_ai_acquisition 3 None done_own_other_busy)
     = Val (Some true).
Proof.
  split; [|split; [|split]].
  - intros fuel st w. destruct w as [[] ? ? ?].
    unfold wait_for_ai_acquisition, truediv.
    destruct st; cbn; unfold pbind; cbn;
      destruct (Qeq_bool _ 0); reflexivity.
  - reflexivity.
  - intros j. reflexivity.
  - vm_compute. reflexivity.
Qed.

End WaveformsFacts.

Module MonitorViewFacts.
Import MonitorView.

Section Window.

Variable Quantity : Type.
Variable Q_ : string -> Reply Quantity.
Variable m_as_ms : Quantity -> Reply Q.

Lemma start_monitor_running (s : Process Quantity) :
  running_monitor _ (window _ s) = true ->
  start_monitor Quantity Q_ m_as_ms s
  = (Val tt, mkProcess _ (window _ s) (alive _ s) (created _ s)
                       (stdout _ s ++ ["Monitor already running"%string])).
Proof.
  intros H. unfold start_monitor.
  cbv [bind Monad_PyM pbind get MonadState_PyM]. rewrite H. reflexivity.
Qed.

Lemma stop_monitor_not_running (s : Process Quantity) :
  running_monitor _ (window _ s) = false ->
  stop_monitor Quantity s
  = (Val tt, mkProcess _ (window _ s) (alive _ s) (created _ s)
                       (stdout _ s ++ ["Monitor not running"%string])).
Proof.
  intros H. unfold stop_monitor.
  cbv [bind Monad_PyM pbind get MonadState_PyM]. rewrite H. reflexivity.
Qed.

Ltac step_reply :=
  match goal with
  | |- context [call ?r] => destruct r; cbn
  | |- context [match ?o with Some _ => _ | None => _ end] =>
      destruct o; cbn
  end.

Lemma one_worker_start s :
  one_worker Quantity s ->
  one_worker Quantity (snd (start_monitor Quantity Q_ m_as_ms s)).
Proof.
  intros H. destruct (running_monitor _ (window _ s)) eqn:R.
  - rewrite (start_monitor_running s R). exact H.
  - assert (Ha : alive _ s = []).
    { destruct H as [H | [H _]]; [exact H | congruence]. }
    destruct s as [[o tm run wt dl xd yd pl] al cr out]. cbn in *. subst.
    unfold start_monitor, one_worker.
    cbv [bind Monad_PyM pbind get MonadState_PyM]. cbn.
    repeat step_reply;
      first [ left; reflexivity
            | right; split; [reflexivity | eexists; split; reflexivity] ].
Qed.

Lemma one_worker_stop s :
  one_worker Quantity s ->
  one_worker Quantity (snd (stop_monitor Quantity s)).
Proof.
  intros H. destruct (running_monitor _ (window _ s)) eqn:R.
  - destruct s as [[o tm run wt dl xd yd pl] al cr out].
    unfold one_worker in H. cbn in *. subst.
    unfold stop_monitor, one_worker.
    cbv [bind Monad_PyM pbind get MonadState_PyM]. cbn.
    destruct H as [-> | (_ & t & Hw & ->)].
    + destruct wt; cbn; left; reflexivity.
    + rewrite Hw. cbn. rewrite Nat.eqb_refl. cbn. left. reflexivity.
  - rewrite (stop_monitor_not_running s R). exact H.
Qed.

Lemma one_worker_finished s t :
  one_worker Quantity s ->
  one_worker Quantity (snd (thread_terminate Quantity t s)).
Proof.
  intros [H | (Hr & u & Hw & Ha)]; unfold one_worker; cbn.
  - left. rewrite H. reflexivity.
  - rewrite Ha. cbn. destruct (Nat.eqb u t); cbn.
    + left. reflexivity.
    + right. split; [exact Hr|]. exists u. split; [exact Hw | reflexivity].
Qed.

Lemma one_worker_handle e s :
  one_worker Quantity s ->
  one_worker Quantity (handle Quantity Q_ m_as_ms e s).
Proof.
  intros H. destruct e; cbn [handle].
  - apply one_worker_start, H.
  - apply one_worker_stop, H.
  - exact H.
  - unfold update_properties. cbv [bind Monad_PyM pbind].
    unfold update at 1. cbn [fst snd].
    destruct (getitem props "time_resolution"); exact H.
  - exact H.
  - exact H.
  - apply one_worker_finished, H.
  - exact H.
Qed.

Lemma reachable_one_worker s :
  reachable Quantity Q_ m_as_ms s -> one_worker Quantity s.
Proof.
  induction 1 as [o text | e s _ IH].
  - left. reflexivity.
  - apply one_worker_handle, IH.
Qed.

(** C9.  In every reachable state of the monitor view at most one worker
    thread is alive and at most one update timer is active.  Calling
    [start_monitor] while the monitor runs starts no worker and no timer:
    it prints a line and leaves the window and the threads as they are;
    so does calling [stop_monitor] while it does not run, which cancels
    nothing. *)
Theorem monitor_at_most_one_worker_and_timer :
  forall s : Process Quantity,
    reachable Quantity Q_ m_as_ms s ->
    (List.length (alive _ s) <= 1)%nat
    /\ (active_timers _ s <= 1)%nat
    /\ (running_monitor _ (window _ s) = true ->
        start_monitor Quantity Q_ m_as_ms s
        = (Val tt,
           mkProcess _ (window _ s) (alive _ s) (created _ s)
                     (stdout _ s ++ ["Monitor already running"%string])))
    /\ (running_monitor _ (window _ s) = false ->
        stop_monitor Quantity s
        = (Val tt,
           mkProcess _ (window _ s) (alive _ s) (created _ s)
                     (stdout _ s ++ ["Monitor not running"%string]))).
Proof.
  intros s Hs. split; [|split; [|split]].
  - destruct (reachable_one_worker s Hs) as [-> | (_ & t & _ & ->)];
      cbn; lia.
  - unfold active_timers. destruct (active _); lia.
  - apply start_monitor_running.
  - apply stop_monitor_not_running.
Qed.

(** C10.  [closeEvent] accepts the close event whatever the user answers
    in the confirmation dialog: the answer [No] closes the window as
    [Yes] does, and nothing else changes. *)
Theorem closeEvent_accepts_every_reply :
  forall (reply : StandardButton) (event : QCloseEvent)
         (s : Process Quantity),
    closeEvent Quantity reply event s = (Val (mkCloseEvent true), s)
    /\ closeEvent Quantity No event s = closeEvent Quantity Yes event s.
Proof.
  intros reply event s. split; reflexivity.
Qed.

End Window.

(** A window whose delay field and refresh time parse, after [Start] was
    clicked twice and [Stop] once. *)
Lemma monitor_at_most_one_worker_and_timer_witness :
  let Q_ := fun _ : string => Gives 100%Q in
  let m_as_ms := fun q : Q => Gives q in
  let o := mkOperator Q (Some [("refresh_time", "100ms")]%string) None [] [] in
  let s := handle Q Q_ m_as_ms (StartClicked)
             (handle Q Q_ m_as_ms (StopClicked)
                (handle Q Q_ m_as_ms (StartClicked)
                   (handle Q Q_ m_as_ms (StartClicked)
                      (init Q o "10ms")))) in
  (List.length (alive _ s) <= 1)%nat /\ (active_timers _ s <= 1)%nat.
Proof.
  cbv zeta.
  destruct (monitor_at_most_one_worker_and_timer Q
              (fun _ : string => Gives 100%Q) (fun q : Q => Gives q)
              (handle Q (fun _ : string => Gives 100%Q) (fun q : Q => Gives q)
                 (StartClicked)
                 (handle Q (fun _ : string => Gives 100%Q)
                    (fun q : Q => Gives q) (StopClicked)
                    (handle Q (fun _ : string => Gives 100%Q)
                       (fun q : Q => Gives q) (StartClicked)
                       (handle Q (fun _ : string => Gives 100%Q)
                          (fun q : Q => Gives q) (StartClicked)
                          (init Q (mkOperator Q
                                     (Some [("refresh_time", "100ms")]%string)
                                     None [] []) "10ms"))))))
    as (A & B & _).
  - repeat apply reach_step. apply reach_init.
  - split; [exact A | exact B].
Defined.

End MonitorViewFacts.

(** * Further properties of the controller *)

Module ControllerFacts.
Import Waveforms PyFacts WaveformsFacts.

(** *** [preset_basic_analog] and [__init__] *)

(** The preset puts its three arguments into the analog-in instrument and
    leaves the acquisition stopped; it resets the analog-out instrument to
    a DC carrier on all channels and starts it.  It keeps the fields of
    the object - among them the last voltages and the stabilized-at
    timestamp - and reads neither the clock nor [daq].  A second preset
    with the same arguments leaves the analog-in instrument as the first
    one set it. *)
Theorem preset_basic_analog_configures :
  forall n freq range return_std w,
    let r := preset_basic_analog n freq range return_std w in
    fst r = Val tt
    /\ buffer_size (ai (self (snd r))) = n
    /\ frequency (ai (self (snd r))) = freq
    /\ channel_range (ai (self (snd r))) = range
    /\ started (ai (self (snd r))) = false
    /\ ao (self (snd r))
       = ao (self w) ++ [AoReset; AoNodeFunctionSet (-1) CARRIER DC;
                         AoConfigure (-1) 3; AoConfigure (-1) 1]
    /\ (_last_ao0 (self (snd r)), _last_ao1 (self (snd r)),
        _time_stabilized (self (snd r)), _read_timeout (self (snd r)))
       = (_last_ao0 (self w), _last_ao1 (self w),
          _time_stabilized (self w), _read_timeout (self w))
    /\ (clock (snd r), log (snd r), daq (snd r)) = (clock w, log w, daq w)
    /\ ai (self (snd (preset_basic_analog n freq range return_std (snd r))))
       = ai (self (snd r)).
Proof.
  intros n freq range return_std w. cbv zeta.
  repeat match goal with |- _ /\ _ => split end; try reflexivity.
  cbn. rewrite <- !app_assoc. reflexivity.
Qed.

(** [wait_for_stabilization], run. *)
Lemma wait_for_stabilization_run w :
  wait_for_stabilization w
  = let t := now (tick (clock w)) in
    let ts := _time_stabilized (self w) in
    if Py.gt (ts - t) 0
    then (Val (ts - t)%Q,
          set_clock (mkClock (t + (ts - t) + elapse (clock w) (S (obs (clock w))))
                             (S (S (obs (clock w)))) (elapse (clock w)))
                    (set_self (self w) w))
    else (Val 0%Q, set_clock (tick (clock w)) (set_self (self w) w)).
Proof.
  cbv zeta. unfold wait_for_stabilization. cbn [bind Monad_PyM ret].
  unfold pbind at 1. unfold on_self at 1, field at 1. cbn [fst snd].
  unfold pbind at 1. unfold time_time at 1. cbn [fst snd clock set_self].
  destruct (Py.gt _ 0); reflexivity.
Qed.

(** A wait leaves the timestamp alone and ends with the clock at or past
    it, on a clock that does not run backwards. *)
Lemma wait_for_stabilization_settles w :
  (forall j, 0 <= elapse (clock w) j)%Q ->
  let w' := snd (wait_for_stabilization w) in
  _time_stabilized (self w') = _time_stabilized (self w)
  /\ (_time_stabilized (self w') <= now (clock w'))%Q
  /\ elapse (clock w') = elapse (clock w).
Proof.
  intros Hmono. pose proof (Hmono (S (obs (clock w)))) as Hs.
  cbv zeta. rewrite wait_for_stabilization_run. cbv zeta.
  destruct (Py.gt _ 0) eqn:G;
    [apply gt_spec in G | apply gt_false in G]; cbn in *;
    repeat split; lra.
Qed.




(** *** Writing, then waiting *)

Lemma write_analog_elapse volt channel w :
  elapse (clock (snd (write_analog volt channel w))) = elapse (clock w).
Proof.
  unfold write_analog. cbn [bind Monad_PyM ret].
  destruct ((channel =? 0) || (channel =? -1)); reflexivity.
Qed.

(** After a write to channel 0 or to all channels, waiting for
    stabilization ends no earlier than 13 ms plus 5 ms per volt of change
    after the write read the clock, for the change of channel 0 as for
    that of channel 1 (measured from the second reading of the clock). *)
Theorem write_then_wait_settles :
  forall volt channel w,
    channel = 0 \/ channel = -1 ->
    (forall j, 0 <= elapse (clock w) j)%Q ->
    let done :=
      now (clock (snd (wait_for_stabilization
                         (snd (write_analog volt channel w))))) in
    (now (tick (clock w)) + 0.013
     + 0.005 * Qabs (_last_ao0 (self w) - volt) <= done)%Q
    /\ (now (tick (tick (clock w))) + 0.013
        + 0.005 * Qabs (_last_ao1 (self w) - volt) <= done)%Q.
Proof.
  intros volt channel w Hch Hmono. cbv zeta.
  destruct (wait_for_stabilization_settles (snd (write_analog volt channel w)))
    as (Hts & Hle & _).
  { intros j. rewrite write_analog_elapse. apply Hmono. }
  rewrite Hts in Hle.
  assert (Hw : (Py.max (Py.max (_time_stabilized (self w))
                          (now (tick (clock w)) + 0.013
                           + 0.005 * Qabs (_last_ao0 (self w) - volt)))
                  (now (tick (tick (clock w))) + 0.013
                   + 0.005 * Qabs (_last_ao1 (self w) - volt))
                = _time_stabilized (self (snd (write_analog volt channel w))))).
  { destruct Hch as [-> | ->]; reflexivity. }
  rewrite <- Hw in Hle. split.
  - eapply Qle_trans; [|exact Hle].
    eapply Qle_trans; [apply max_ge_r|apply max_ge_l].
  - eapply Qle_trans; [|exact Hle]. apply max_ge_r.
Qed.

Lemma write_then_wait_settles_witness :
  (now (tick (clock script)) + 0.013
   + 0.005 * Qabs (_last_ao0 (self script) - 1.3)
   <= now (clock (snd (wait_for_stabilization
                         (snd (write_analog 1.3 0 script))))))%Q.
Proof.
  destruct (write_then_wait_settles 1.3 0 script) as [H _].
  - left. reflexivity.
  - intros j. vm_compute. discriminate.
  - exact H.
Defined.



(** *** The acquisition wait: division by zero, and what its results mean *)

Lemma state_ne_false a b : state_ne a b = false -> a = b.
Proof. destruct a, b; simpl; congruence. Qed.

Lemma wait_zero_frequency fuel st w :
  (frequency (ai (self w)) == 0)%Q ->
  wait_for_ai_acquisition fuel st w
  = (Exn ZeroDivisionError, after_start st w).
Proof.
  intros Hf. apply Qeq_bool_iff in Hf.
  unfold wait_for_ai_acquisition, after_start.
  destruct st as [t|]; cbn [bind Monad_PyM ret];
    unfold pbind, pret, time_time, on_self, via_ai, bufferSizeGet,
      frequencyGet, truediv;
    cbn [self set_clock set_self ai set_ai fst snd clock];
    destruct w as [[] ? ? ?]; cbn in *; rewrite Hf; reflexivity.
Qed.

Lemma self_after_configure w d :
  daq_obj w = Some d ->
  let wc := daq_store (snd (via_ai (ai_configure 0 1) d)) w in
  frequency (ai (self wc)) = frequency (ai (self w))
  /\ derived_timeout wc = derived_timeout w
  /\ _basic_analog_return_std (self wc) = _basic_analog_return_std (self w).
Proof.
  unfold daq_store, daq_obj, derived_timeout.
  destruct (daq w); try discriminate.
  - intros [= <-]. repeat split.
  - intros _. repeat split.
Qed.

(** With a sample frequency of zero the timeout cannot be computed: the
    wait raises [ZeroDivisionError] before it polls the device, having
    read the clock if no start timestamp was given; a read raises it too,
    after it has started the acquisition on [daq]'s instrument. *)
Theorem acquisition_with_zero_frequency_raises :
  forall fuel start_timestamp w,
    (frequency (ai (self w)) == 0)%Q ->
    wait_for_ai_acquisition fuel start_timestamp w
    = (Exn ZeroDivisionError, after_start start_timestamp w)
    /\ forall d,
         daq_obj w = Some d ->
         fst (read_analog fuel w) = Exn ZeroDivisionError
         /\ log (snd (read_analog fuel w)) = log w
         /\ exists d',
              daq_obj (snd (read_analog fuel w)) = Some d'
              /\ started (ai d') = true
              /\ polls (ai d') = polls (ai d).
Proof.
  intros fuel st w Hf. split; [apply wait_zero_frequency, Hf|].
  intros d Hd.
  destruct (self_after_configure w d Hd) as (Hfreq & _ & _).
  cbv zeta in Hfreq.
  assert (E : read_analog fuel w
              = (Exn ZeroDivisionError,
                 after_start None
                   (daq_store (snd (via_ai (ai_configure 0 1) d)) w))).
  { unfold read_analog. cbn [bind Monad_PyM]. unfold pbind at 1.
    rewrite (on_daq_bound _ _ _ Hd). cbn [fst snd].
    unfold pbind at 1.
    rewrite wait_zero_frequency by (rewrite Hfreq; exact Hf).
    reflexivity. }
  rewrite E. cbn [fst snd after_start]. split; [reflexivity|]. split.
  - cbn [log set_clock]. apply log_daq_store.
  - eexists. split.
    + rewrite daq_obj_set_clock. apply (daq_obj_store _ _ _ Hd).
    + split; reflexivity.
Qed.

Lemma acquisition_with_zero_frequency_raises_witness :
  fst (read_analog 1 (snd (preset_basic_analog 84 0 50 false script)))
  = Exn ZeroDivisionError.
Proof.
  destruct (acquisition_with_zero_frequency_raises 1 None
              (snd (preset_basic_analog 84 0 50 false script)))
    as [_ H].
  - vm_compute. reflexivity.
  - destruct (H (self (snd (preset_basic_analog 84 0 50 false script))))
      as [E _]; [reflexivity | exact E].
Defined.

(** What a result of the polling loop tells. *)
Lemma poll_sound fuel : forall w d start to r w',
  daq_obj w = Some d ->
  poll fuel start to w = (Val r, w') ->
  exists k,
    (k < fuel)%nat
    /\ (forall j, (j < k)%nat ->
                  answer d j <> DONE
                  /\ (reading (clock w) j <= start + to)%Q)
    /\ ((r = Some true /\ answer d k <> DONE
         /\ (start + to < reading (clock w) k)%Q
         /\ log w' = log w ++ [timeout_record])
        \/ (r = None /\ answer d k = DONE /\ log w' = log w)).
Proof.
  induction fuel as [|fuel IH]; intros w d start to r w' Hd Hrun.
  - discriminate.
  - rewrite (poll_S _ _ _ _ _ Hd) in Hrun.
    assert (A0 : answer d 0 = report (ai d) (polls (ai d)))
      by (unfold answer; rewrite Nat.add_0_r; reflexivity).
    destruct (state_ne (report (ai d) (polls (ai d))) DONE) eqn:Hst.
    + apply state_ne_spec in Hst. cbv zeta in Hrun.
      destruct (Py.gt (now (tick (clock w))) (start + to)) eqn:G.
      * apply gt_spec in G. injection Hrun as <- <-.
        exists 0%nat. split; [lia|]. split; [intros j Hj; lia|].
        left. repeat split.
        -- rewrite A0. exact Hst.
        -- exact G.
      * apply gt_false in G.
        destruct (IH _ _ _ _ _ _ (daq_obj_polled d w Hd) Hrun)
          as (k & Hk & Hbefore & Hend).
        exists (S k). split; [lia|]. split.
        -- intros [|j] Hj.
           ++ split; [rewrite A0; exact Hst | exact G].
           ++ destruct (Hbefore j ltac:(lia)) as [H1 H2].
              rewrite answer_polled in H1.
              cbn [clock set_clock] in H2. rewrite reading_tick in H2.
              split; assumption.
        -- cbn [clock set_clock log] in Hend.
           unfold polled in Hend. rewrite log_daq_store in Hend.
           rewrite answer_polled, reading_tick in Hend. exact Hend.
    + apply state_ne_false in Hst. injection Hrun as <- <-.
      exists 0%nat. split; [lia|]. split; [intros j Hj; lia|].
      right. repeat split.
      * rewrite A0. exact Hst.
      * unfold polled. apply log_daq_store.
Qed.

(** The wait never reports a timeout early: it returns [True] only at a
    poll at which the device is still busy and the time elapsed since the
    start timestamp exceeds [1.9 + n/f], no earlier reading having
    exceeded it, and then it has logged the timeout; it returns [None]
    only at a poll at which the device reported [DONE], and then it has
    logged nothing.  It returns nothing else. *)
Theorem wait_for_ai_acquisition_sound :
  forall fuel start_timestamp w d r w',
    daq_obj w = Some d ->
    ~ (frequency (ai (self w)) == 0)%Q ->
    wait_for_ai_acquisition fuel start_timestamp w = (Val r, w') ->
    let start := start_of start_timestamp w in
    let c := clock (after_start start_timestamp w) in
    exists k,
      (k < fuel)%nat
      /\ (forall j, (j < k)%nat ->
                    answer d j <> DONE
                    /\ (reading c j - start <= derived_timeout w)%Q)
      /\ ((r = Some true /\ answer d k <> DONE
           /\ (derived_timeout w < reading c k - start)%Q
           /\ log w' = log w ++ [timeout_record])
          \/ (r = None /\ answer d k = DONE /\ log w' = log w)).
Proof.
  intros fuel st w d r w' Hd Hf Hrun start c.
  rewrite (wait_unfold _ _ _ Hf) in Hrun.
  assert (Hd' : daq_obj (after_start st w) = Some d)
    by (rewrite daq_obj_after_start; exact Hd).
  destruct (poll_sound _ _ _ _ _ _ _ Hd' Hrun) as (k & Hk & Hbefore & Hend).
  rewrite log_after_start in Hend. fold c in Hbefore, Hend.
  fold start in Hbefore, Hend.
  exists k. split; [exact Hk|]. split.
  - intros j Hj. destruct (Hbefore j Hj) as [H1 H2]. split; [exact H1|lra].
  - destruct Hend as [(H1 & H2 & H3 & H4) | H]; [left | right; exact H].
    repeat split; try assumption. lra.
Qed.

Lemma wait_for_ai_acquisition_sound_witness :
  exists k,
    (k < 2)%nat
    /\ (derived_timeout busy_world
        < reading (clock (after_start None busy_world)) k
          - start_of None busy_world)%Q.
Proof.
  destruct (wait_for_ai_acquisition_sound 2 None busy_world (self busy_world)
              (Some true) (snd (wait_for_ai_acquisition 2 None busy_world)))
    as (k & Hk & _ & [(_ & _ & H & _) | (H & _)]).
  - reflexivity.
  - vm_compute. discriminate.
  - vm_compute. reflexivity.
  - exists k. split; [exact Hk | exact H].
  - discriminate H.
Defined.

(** *** A read that finds the acquisition done *)

(** A driver call that only reads leaves the world as it is. *)
Lemma on_daq_reads {A} (g : AnalogIn -> A * AnalogIn) w c :
  daq_obj w = Some c ->
  snd (g (ai c)) = ai c ->
  on_daq (via_ai g) w = (Val (fst (g (ai c))), w).
Proof.
  intros Hc Hg. rewrite (on_daq_bound _ _ _ Hc). unfold via_ai.
  destruct (g (ai c)) as [x a] eqn:E. cbn [fst snd] in *. subst a.
  f_equal. unfold daq_obj, daq_store in *.
  destruct w as [sf dq ck lg]. cbn in *.
  destruct dq; try discriminate.
  - injection Hc as <-. destruct sf. reflexivity.
  - injection Hc as ->. destruct c. reflexivity.
Qed.

(** Polling changes neither the buffer size nor the samples of [daq]'s
    instrument. *)
Lemma poll_keeps_instrument fuel : forall w d start to,
  daq_obj w = Some d ->
  exists d',
    daq_obj (snd (poll fuel start to w)) = Some d'
    /\ buffer_size (ai d') = buffer_size (ai d)
    /\ samples (ai d') = samples (ai d).
Proof.
  induction fuel as [|fuel IH]; intros w d start to Hd.
  - exists d. repeat split. exact Hd.
  - rewrite (poll_S _ _ _ _ _ Hd).
    destruct (state_ne _ DONE); cbv zeta.
    + destruct (Py.gt _ _).
      * exists (snd (via_ai ai_status d)). repeat split.
        cbn [snd]. apply (daq_obj_polled d w Hd).
      * destruct (IH _ _ start to (daq_obj_polled d w Hd))
          as (d' & H1 & H2 & H3).
        exists d'. repeat split; assumption.
    + exists (snd (via_ai ai_status d)). repeat split.
      cbn [snd]. unfold polled. apply (daq_obj_store _ _ _ Hd).
Qed.

(** The run of a read that finds the acquisition done. *)
Lemma read_analog_done :
  forall (w : World) (d : Controller) (k fuel : nat),
    daq_obj w = Some d ->
    ~ (frequency (ai (self w)) == 0)%Q ->
    (k < fuel)%nat ->
    (forall j, (j < k)%nat ->
               answer d j <> DONE
               /\ (reading (tick (clock w)) j
                   <= now (tick (clock w)) + derived_timeout w)%Q) ->
    answer d k = DONE ->
    let n := Z.to_nat (buffer_size (ai d)) in
    let c0 := firstn n (samples (ai d) 0) in
    let c1 := firstn n (samples (ai d) 1) in
    fst (read_analog fuel w)
    = Val (if _basic_analog_return_std (self w)
           then [VFloat (np_mean c0); VFloat (np_mean c1);
                 VFloat (np_std c0); VFloat (np_std c1)]
           else [VFloat (np_mean c0); VFloat (np_mean c1)])
    /\ log (snd (read_analog fuel w)) = log w.
Proof.
  intros w d k fuel Hd Hf Hk Hbefore Hdone n c0 c1.
  set (dc := snd (via_ai (ai_configure 0 1) d)).
  set (wc := daq_store dc w).
  assert (Hdc : daq_obj wc = Some dc) by (apply (daq_obj_store _ _ _ Hd)).
  destruct (self_after_configure w d Hd) as (Hfreq & Hto & Hflag).
  cbv zeta in Hfreq, Hto, Hflag. fold dc in Hfreq, Hto, Hflag.
  fold wc in Hfreq, Hto, Hflag.
  assert (Hf' : ~ (frequency (ai (self wc)) == 0)%Q)
    by (rewrite Hfreq; exact Hf).
  assert (Hclock : clock wc = clock w) by apply clock_daq_store.
  assert (Hstart : daq_obj (after_start None wc) = Some dc)
    by (rewrite daq_obj_after_start; exact Hdc).
  destruct (poll_done k fuel (after_start None wc) dc
              (start_of None wc) (derived_timeout wc) Hstart Hk)
    as (w' & E & L & F).
  { intros j Hj. apply (Hbefore j Hj). }
  { intros j Hj. cbn [after_start start_of clock set_clock].
    rewrite Hclock, Hto. apply (Hbefore j Hj). }
  { exact Hdone. }
  destruct (poll_keeps_instrument fuel (after_start None wc) dc
              (start_of None wc) (derived_timeout wc) Hstart)
    as (d' & Hd' & Hbuf & Hsam).
  rewrite E in Hd'. cbn [snd] in Hd'.
  assert (R : read_analog fuel w
              = (Val (if _basic_analog_return_std (self w)
                      then [VFloat (np_mean c0); VFloat (np_mean c1);
                            VFloat (np_std c0); VFloat (np_std c1)]
                      else [VFloat (np_mean c0); VFloat (np_mean c1)]), w')).
  { unfold read_analog. cbn [bind Monad_PyM]. unfold pbind at 1.
    rewrite (on_daq_bound _ _ _ Hd). cbn [fst snd]. fold dc. fold wc.
    unfold pbind at 1. rewrite (wait_unfold _ _ _ Hf'), E.
    cbn [truthy]. unfold pbind at 1.
    rewrite (on_daq_reads bufferSizeGet w' d' Hd' eq_refl).
    unfold pbind at 1.
    rewrite (on_daq_reads (statusData 0 _) w' d' Hd' eq_refl).
    unfold pbind at 1.
    rewrite (on_daq_reads (statusData 1 _) w' d' Hd' eq_refl).
    unfold pbind, on_self, field. cbn [fst snd bufferSizeGet statusData].
    rewrite F, flag_after_start, Hflag, Hbuf, Hsam.
    fold n. fold c0. fold c1.
    destruct w' as [[] ? ? ?].
    destruct (_basic_analog_return_std (self w)); reflexivity. }
  rewrite R. cbn [fst snd]. split; [reflexivity|].
  rewrite L, log_after_start. apply log_daq_store.
Qed.

(** When the device reports [DONE] before any reading of the clock is
    past the deadline, [read_analog] returns the means of the first
    [buffer_size] samples that [daq]'s instrument holds for channel 0 and
    for channel 1, followed by their standard deviations when
    [_basic_analog_return_std] is set, and logs nothing. *)
Theorem read_analog_returns_means :
  forall (w : World) (d : Controller) (k fuel : nat),
    daq_obj w = Some d ->
    ~ (frequency (ai (self w)) == 0)%Q ->
    (k < fuel)%nat ->
    (forall j, (j < k)%nat ->
               answer d j <> DONE
               /\ (reading (tick (clock w)) j
                   <= now (tick (clock w)) + derived_timeout w)%Q) ->
    answer d k = DONE ->
    let n := Z.to_nat (buffer_size (ai d)) in
    let c0 := firstn n (samples (ai d) 0) in
    let c1 := firstn n (samples (ai d) 1) in
    fst (read_analog fuel w)
    = Val (if _basic_analog_return_std (self w)
           then [VFloat (np_mean c0); VFloat (np_mean c1);
                 VFloat (np_std c0); VFloat (np_std c1)]
           else [VFloat (np_mean c0); VFloat (np_mean c1)])
    /\ log (snd (read_analog fuel w)) = log w.
Proof. exact read_analog_done. Qed.

Lemma read_analog_returns_means_witness :
  fst (read_analog 1 script)
  = Val (if _basic_analog_return_std (self script)
         then [VFloat (np_mean (firstn (Z.to_nat (buffer_size (ai (self script))))
                                       (samples (ai (self script)) 0)));
               VFloat (np_mean (firstn (Z.to_nat (buffer_size (ai (self script))))
                                       (samples (ai (self script)) 1)));
               VFloat (np_std (firstn (Z.to_nat (buffer_size (ai (self script))))
                                      (samples (ai (self script)) 0)));
               VFloat (np_std (firstn (Z.to_nat (buffer_size (ai (self script))))
                                      (samples (ai (self script)) 1)))]
         else [VFloat (np_mean (firstn (Z.to_nat (buffer_size (ai (self script))))
                                       (samples (ai (self script)) 0)));
               VFloat (np_mean (firstn (Z.to_nat (buffer_size (ai (self script))))
                                       (samples (ai (self script)) 1)))]).
Proof.
  destruct (read_analog_returns_means script (self script) 0 1) as [H _].
  - reflexivity.
  - vm_compute. discriminate.
  - lia.
  - intros j Hj. lia.
  - reflexivity.
  - exact H.
Defined.

End ControllerFacts.

(** * Further properties of the device inventory *)

Module InventoryFacts.
Import Waveforms PyFacts WaveformsFacts.

(** What a completed loop over the configurations returns. *)
Lemma for_configs_result device todo : forall acc f cfgs f',
  for_configs device todo acc f = (Val cfgs, f') ->
  exists news,
    cfgs = acc ++ news
    /\ List.length news = List.length todo
    /\ forall j iCfg conf,
         nth_error todo j = Some iCfg ->
         nth_error news j = Some conf ->
         config_of device iCfg conf.
Proof.
  induction todo as [|iCfg rest IH]; intros acc f cfgs f'.
  - cbn. intros [= <- <-]. exists []. rewrite app_nil_r.
    split; [reflexivity|]. split; [reflexivity|].
    intros j i conf Hj. destruct j; discriminate.
  - cbn [for_configs]. cbv [bind Monad_PyM pbind].
    do 8 (step_call; [|discriminate]).
    intros Hrun. destruct (IH _ _ _ _ Hrun) as (news & -> & Hlen & Hnth).
    eexists (_ :: news). rewrite <- app_assoc. split; [reflexivity|].
    split; [cbn; rewrite Hlen; reflexivity|].
    intros [|j] i conf Hi Hc; cbn in Hi, Hc.
    + injection Hi as <-. injection Hc as <-.
      repeat split; assumption.
    + apply (Hnth j i conf Hi Hc).
Qed.

(** What [enumerate_devices] records for one device.  The identity fields
    are the driver's answers and [dev] is the device's position.  For a
    device that reports an open connection the entry carries the
    placeholder string and no maximum frequency, and one warning is
    logged; for one that does not, nothing is logged and the entry carries
    the upper frequency bound the driver reported and one configuration
    for each index below the count the driver reported, each holding the
    driver's eight answers for that index. *)
Theorem probe_builds_entry :
  forall i device entry,
    probe_outcome i device = Val entry ->
    dev_SN device = Gives (SN (info entry))
    /\ dev_deviceName device = Gives (deviceName (info entry))
    /\ dev_userName device = Gives (userName (info entry))
    /\ dev entry = i
    /\ ((dev_isOpened device = Gives true
         /\ configs entry = ConfigStr placeholder
         /\ maxAIfreq (info entry) = None
         /\ probe_log i device
            = [mkLog WARNING (already_open_msg i (SN (info entry))) []])
        \/ (dev_isOpened device = Gives false
            /\ probe_log i device = []
            /\ exists cfgs lo hz n,
                 configs entry = ConfigList cfgs
                 /\ dev_frequencyInfo device = Gives (lo, hz)
                 /\ maxAIfreq (info entry) = Some hz
                 /\ dev_FDwfEnumConfig device = Gives n
                 /\ List.length cfgs = Z.to_nat n
                 /\ forall j conf, nth_error cfgs j = Some conf ->
                                   config_of device j conf)).
Proof.
  intros i device entry.
  unfold probe_outcome, probe_log, probe. cbv [bind Monad_PyM pbind].
  do 4 (step_call; [|discriminate]).
  match goal with |- context [if ?b then _ else _] => destruct b end.
  - cbn. intros [= <-]. cbn.
    do 4 (split; [reflexivity|]). left. repeat split.
  - do 5 (step_call; [|discriminate]).
    match goal with
    | |- context [for_configs ?d ?t ?acc ?f] =>
        pose proof (for_configs_frame d t acc f) as Hf;
        pose proof (for_configs_result d t acc f) as Hr;
        destruct (for_configs d t acc f) as [[cfgs|e|] f']
    end; try discriminate.
    cbn [snd] in Hf. subst f'.
    destruct (Hr cfgs _ eq_refl) as (news & -> & Hlen & Hnth).
    step_call; [|discriminate].
    intros [= <-]. cbn.
    do 4 (split; [reflexivity|]). right.
    split; [reflexivity|]. split; [reflexivity|].
    rewrite length_seq in Hlen.
    match goal with
    | |- context [Gives ?p = Gives (_, _)] =>
        destruct p as [lo hz]; exists news, lo, hz
    end.
    eexists.
    split; [reflexivity|]. split; [reflexivity|]. split; [reflexivity|].
    split; [reflexivity|]. split; [exact Hlen|].
    intros j conf Hj.
    assert (Hlt : (j < List.length news)%nat)
      by (apply nth_error_Some; congruence).
    apply (Hnth j j conf); [|exact Hj].
    rewrite nth_error_seq. rewrite Hlen in Hlt.
    match goal with
    | |- context [Nat.ltb ?x ?y] => destruct (Nat.ltb_spec x y)
    end; [reflexivity | lia].
Qed.

Lemma probe_builds_entry_witness :
  dev_SN (discovery2 false) = Gives "210321A1B2C3"%string.
Proof.
  destruct (probe_builds_entry 0 (discovery2 false)
              (mkDevDict
                 (mkInfo "210321A1B2C3" "Analog Discovery 2" "lab"
                         (Some 100000000%Q))
                 (ConfigList [mkConfig (mkChBuf 2 2) (mkChBuf 2 2)
                                       (mkChBuf 2 2) (mkChBuf 2 2)]) 0))
    as (H & _).
  - reflexivity.
  - exact H.
Defined.

(** An entry carries a string for its configurations exactly when its
    device reported an open connection. *)
Lemma probe_builds_entry_cases i device entry :
  probe_outcome i device = Val entry ->
  (dev_isOpened device = Gives true /\ is_str (configs entry) = true)
  \/ (dev_isOpened device = Gives false /\ is_str (configs entry) = false).
Proof.
  unfold probe_outcome, probe. cbv [bind Monad_PyM pbind].
  do 4 (step_call; [|discriminate]).
  match goal with |- context [if ?b then _ else _] => destruct b end.
  - cbn. intros [= <-]. left. split; reflexivity.
  - do 5 (step_call; [|discriminate]).
    match goal with
    | |- context [for_configs ?d ?t ?acc ?f] =>
        destruct (for_configs d t acc f) as [[cfgs|e|] f']
    end; try discriminate.
    step_call; [|discriminate].
    intros [= <-]. right. split; reflexivity.
Qed.

(** The loop over the devices when no probe raises. *)
Lemma for_devices_completes devs : forall i f,
  (forall j d, nth_error devs j = Some d ->
               exists entry, probe_outcome (i + j) d = Val entry) ->
  exists entries opened,
    for_devices i devs f
    = (Val tt, mkFrame (flog f ++ opened) (devices f ++ entries))
    /\ List.length entries = List.length devs
    /\ (forall j d, nth_error devs j = Some d ->
                    exists entry, nth_error entries j = Some entry
                                  /\ probe_outcome (i + j) d = Val entry)
    /\ Forall already_open_warning opened.
Proof.
  induction devs as [|g devs IH]; intros i f Hgood.
  - exists [], []. cbn. rewrite !app_nil_r. destruct f. repeat split.
    + intros j d Hj. destruct j; discriminate.
    + constructor.
  - destruct (Hgood 0%nat g eq_refl) as [entry Hentry].
    rewrite Nat.add_0_r in Hentry.
    destruct (IH (S i)
                 (mkFrame (flog f ++ probe_log i g) (devices f ++ [entry])))
      as (entries & opened & E & Hlen & Hnth & Hopen).
    + intros j d Hj. rewrite Nat.add_succ_comm. apply (Hgood (S j) d Hj).
    + exists (entry :: entries), (probe_log i g ++ opened).
      cbn [for_devices]. cbv [bind Monad_PyM pbind].
      rewrite probe_frame, Hentry.
      unfold devices_append at 1, update at 1. cbn [flog devices fst snd].
      rewrite E. cbn [flog devices].
      rewrite <- !app_assoc. split; [reflexivity|].
      split; [cbn; rewrite Hlen; reflexivity|]. split.
      * intros [|j] d Hj.
        -- cbn in Hj. injection Hj as <-. exists entry. split.
           ++ reflexivity.
           ++ rewrite Nat.add_0_r. exact Hentry.
        -- destruct (Hnth j d Hj) as (en & H1 & H2). exists en. split.
           ++ exact H1.
           ++ rewrite <- Nat.add_succ_comm. exact H2.
      * apply Forall_app. split; [|exact Hopen].
        destruct (probe_log_cases i g) as [-> | [sn ->]].
        -- constructor.
        -- constructor; [|constructor]. exists i, sn. reflexivity.
Qed.

(** When the driver answers every query, [enumerate_devices] returns one
    entry for each enumerated device, in the order of the enumeration,
    each being what probing that device at its position yields; it logs
    the warning that opens every enumeration and, after it, nothing but
    warnings about devices found open - no exception record. *)
Theorem enumerate_devices_complete :
  forall drv f m devs,
    FDwfGetLastErrorMsg drv = Gives m ->
    DwfEnumeration drv = Gives devs ->
    (forall j d, nth_error devs j = Some d ->
                 exists entry, probe_outcome j d = Val entry) ->
    exists entries opened,
      enumerate_devices drv f
      = (Val entries,
         mkFrame (flog f ++ [mkLog WARNING m []] ++ opened) entries)
      /\ List.length entries = List.length devs
      /\ (forall j d, nth_error devs j = Some d ->
                      exists entry, nth_error entries j = Some entry
                                    /\ probe_outcome j d = Val entry)
      /\ Forall already_open_warning opened.
Proof.
  intros drv f m devs Hm Hdevs Hgood.
  destruct (for_devices_completes devs 0
              (mkFrame (flog f ++ [mkLog WARNING m []]) []) Hgood)
    as (entries & opened & E & Hlen & Hnth & Hopen).
  exists entries, opened. split; [|split; [exact Hlen | split; assumption]].
  unfold enumerate_devices.
  cbv [bind Monad_PyM pbind catch MonadExc_PyM pcatch].
  rewrite Hm, Hdevs. unfold update at 1. cbn [call ret pret Monad_PyM].
  unfold warning at 1, update at 1. cbn [flog devices].
  rewrite E. cbn [flog devices app get MonadState_PyM].
  rewrite <- !app_assoc. reflexivity.
Qed.

Lemma enumerate_devices_complete_witness :
  exists entries opened,
    enumerate_devices (driver_with [discovery2 true; discovery2 false])
                      (mkFrame [] [])
    = (Val entries, mkFrame ([] ++ [mkLog WARNING "" []] ++ opened) entries)
    /\ List.length entries = 2%nat.
Proof.
  destruct (enumerate_devices_complete
              (driver_with [discovery2 true; discovery2 false])
              (mkFrame [] []) ""%string [discovery2 true; discovery2 false])
    as (entries & opened & E & Hlen & _).
  - reflexivity.
  - reflexivity.
  - intros [|[|[|j]]] d Hj; try discriminate;
      injection Hj as <-; eexists; reflexivity.
  - exists entries, opened. split; [exact E | exact Hlen].
Defined.

(** *** Printing the inventory *)

(** What the loop prints does not depend on [incomplete]. *)
Lemma print_devices_output l : forall i a b,
  fst (print_devices i l a) = fst (print_devices i l b).
Proof.
  induction l as [|device rest IH]; intros i a b.
  - reflexivity.
  - cbn [print_devices].
    destruct (configs device) as [str|cl].
    + pose proof (IH (S i)
                     match a with Some _ => Some true | None => None end
                     match b with Some _ => Some true | None => None end) as H.
      destruct (print_devices (S i) rest
                  match a with Some _ => Some true | None => None end).
      destruct (print_devices (S i) rest
                  match b with Some _ => Some true | None => None end).
      cbn [fst] in *. rewrite H. reflexivity.
    + pose proof (IH (S i) a b) as H.
      destruct (print_devices (S i) rest a).
      destruct (print_devices (S i) rest b).
      cbn [fst] in *. rewrite H. reflexivity.
Qed.

(** Passing a list prints what printing it as the cached list prints,
    followed by the notice when some entry carries a string for its
    configurations: the argument changes nothing else. *)
Theorem print_device_list_explicit_or_cached :
  forall (cached l : list DevDict),
    print_device_list cached (Some l)
    = print_device_list l None
      ++ (if has_placeholder l then [PIncompleteNotice] else []).
Proof.
  intros cached l. unfold print_device_list, has_placeholder.
  pose proof (print_devices_output l 0%nat (Some false) None) as Ho.
  destruct (print_devices_spec l 0%nat (Some false)) as [Hs _].
  destruct (print_devices_spec l 0%nat None) as [Hn _].
  destruct (print_devices 0 l (Some false)) as [out final].
  destruct (print_devices 0 l None) as [out' final'].
  cbn [fst snd] in *. subst. cbn [truthy orb]. rewrite app_nil_r.
  reflexivity.
Qed.

(** Devices are printed in the order of the list and numbered from 0:
    the lines that open the device blocks are [Device 0], [Device 1], ...
    one for each entry. *)
Lemma print_devices_numbering l : forall i incomplete,
  filter is_device_line (fst (print_devices i l incomplete))
  = map PDevice (seq i (List.length l)).
Proof.
  induction l as [|device rest IH]; intros i incomplete.
  - reflexivity.
  - cbn [print_devices List.length seq map].
    assert (Hc : forall k cl, filter is_device_line (print_configs k cl) = []).
    { intros k cl. revert k. induction cl as [|c cl IHc]; intros k;
        [reflexivity | cbn; apply IHc]. }
    destruct (configs device) as [str|cl].
    + pose proof (IH (S i)
                     match incomplete with
                     | Some _ => Some true
                     | None => None
                     end) as H.
      destruct (print_devices (S i) rest _) as [out final].
      cbn [fst] in *. rewrite !filter_app, H.
      destruct (maxAIfreq (info device)); reflexivity.
    + pose proof (IH (S i) incomplete) as H.
      destruct (print_devices (S i) rest incomplete) as [out final].
      cbn [fst] in *. rewrite !filter_app, H. cbn [filter is_device_line].
      rewrite Hc. destruct (maxAIfreq (info device)); reflexivity.
Qed.

Theorem print_device_list_numbers_devices :
  forall (cached : list DevDict) (devices_list : option (list DevDict)),
    filter is_device_line (print_device_list cached devices_list)
    = map PDevice
        (seq 0 (List.length match devices_list with
                            | Some l => l
                            | None => cached
                            end)).
Proof.
  intros cached devices_list. unfold print_device_list.
  destruct devices_list as [l|].
  - pose proof (print_devices_numbering l 0%nat (Some false)) as H.
    destruct (print_devices 0 l (Some false)) as [out final].
    cbn [fst] in H. rewrite filter_app, H.
    destruct (truthy final); cbn; rewrite app_nil_r; reflexivity.
  - pose proof (print_devices_numbering cached 0%nat None) as H.
    destruct (print_devices 0 cached None) as [out final].
    cbn [fst] in H. rewrite filter_app, H.
    destruct (truthy final); cbn; rewrite app_nil_r; reflexivity.
Qed.

(** *** Enumerating, then printing *)

Lemma has_placeholder_iff entries devs :
  List.length entries = List.length devs ->
  (forall j d, nth_error devs j = Some d ->
               exists entry, nth_error entries j = Some entry
                             /\ probe_outcome j d = Val entry) ->
  has_placeholder entries = true
  <-> exists d, In d devs /\ dev_isOpened d = Gives true.
Proof.
  intros Hlen Hnth. unfold has_placeholder. rewrite existsb_exists. split.
  - intros (entry & Hin & Hstr).
    destruct (In_nth_error _ _ Hin) as [j Hj].
    assert (Hlt : (j < List.length devs)%nat)
      by (rewrite <- Hlen; apply nth_error_Some; congruence).
    destruct (nth_error devs j) as [d|] eqn:Hd;
      [|apply nth_error_None in Hd; lia].
    destruct (Hnth j d Hd) as (entry' & He & Hp).
    assert (entry' = entry) by congruence. subst entry'.
    exists d. split; [apply (nth_error_In _ _ Hd)|].
    destruct (probe_builds_entry_cases j d entry Hp)
      as [[Ho _] | [_ Hc]]; [exact Ho|].
    rewrite Hc in Hstr. discriminate.
  - intros (d & Hin & Ho).
    destruct (In_nth_error _ _ Hin) as [j Hj].
    destruct (Hnth j d Hj) as (entry & He & Hp).
    exists entry. split; [apply (nth_error_In _ _ He)|].
    destruct (probe_builds_entry_cases j d entry Hp)
      as [[_ Hc] | [Hf _]]; [rewrite Hc; reflexivity | congruence].
Qed.

(** Printing a fresh enumeration in which every device answered shows the
    incomplete-list notice exactly when some enumerated device reported
    an open connection. *)
Theorem fresh_enumeration_notice :
  forall drv f m devs cached,
    FDwfGetLastErrorMsg drv = Gives m ->
    DwfEnumeration drv = Gives devs ->
    (forall j d, nth_error devs j = Some d ->
                 exists entry, probe_outcome j d = Val entry) ->
    exists entries,
      fst (enumerate_devices drv f) = Val entries
      /\ (In PIncompleteNotice (print_device_list cached (Some entries))
          <-> exists d, In d devs /\ dev_isOpened d = Gives true).
Proof.
  intros drv f m devs cached Hm Hdevs Hgood.
  destruct (for_devices_completes devs 0
              (mkFrame (flog f ++ [mkLog WARNING m []]) []) Hgood)
    as (entries & opened & E & Hlen & Hnth & _).
  exists entries. split.
  - unfold enumerate_devices.
    cbv [bind Monad_PyM pbind catch MonadExc_PyM pcatch].
    rewrite Hm, Hdevs. unfold update at 1. cbn [call ret pret Monad_PyM].
    unfold warning at 1, update at 1. cbn [flog devices].
    rewrite E. reflexivity.
  - rewrite <- (has_placeholder_iff entries devs Hlen Hnth).
    unfold print_device_list, has_placeholder.
    destruct (print_devices_spec entries 0%nat (Some false)) as [Hs Hn].
    destruct (print_devices 0 entries (Some false)) as [out final].
    cbn [fst snd] in *. subst final. cbn [orb truthy].
    rewrite in_app_iff. split.
    + intros [H|H]; [contradiction|].
      destruct (existsb _ entries); [reflexivity | destruct H].
    + intros H. right. rewrite H. left. reflexivity.
Qed.

Lemma fresh_enumeration_notice_witness :
  exists entries,
    fst (enumerate_devices (driver_with [discovery2 false; discovery2 true])
                           (mkFrame [] []))
    = Val entries
    /\ In PIncompleteNotice (print_device_list [] (Some entries)).
Proof.
  destruct (fresh_enumeration_notice
              (driver_with [discovery2 false; discovery2 true])
              (mkFrame [] []) ""%string
              [discovery2 false; discovery2 true] [])
    as (entries & E & H).
  - reflexivity.
  - reflexivity.
  - intros [|[|[|j]]] d Hj; try discriminate;
      injection Hj as <-; eexists; reflexivity.
  - exists entries. split; [exact E|]. apply H.
    exists (discovery2 true). split; [right; left|]; reflexivity.
Defined.

End InventoryFacts.

(** * Further properties of the monitor view *)

Module MonitorFacts.
Import MonitorView MonitorViewFacts.

Section Window.

Variable Quantity : Type.
Variable Q_ : string -> Reply Quantity.
Variable m_as_ms : Quantity -> Reply Q.

Ltac step_reply :=
  match goal with
  | |- context [call ?r] => destruct r; cbn
  | |- context [match ?o with Some _ => _ | None => _ end] =>
      destruct o; cbn
  end.

Lemma start_monitor_sets_running s :
  running_monitor _ (window _ (snd (start_monitor Quantity Q_ m_as_ms s)))
  = true.
Proof.
  destruct (running_monitor _ (window _ s)) eqn:R.
  - rewrite (start_monitor_running _ _ _ s R). exact R.
  - destruct s as [[o tm run wt dl xd yd pl] al cr out]. cbn in R. subst.
    unfold start_monitor.
    cbv [bind Monad_PyM pbind get MonadState_PyM]. cbn.
    repeat step_reply; reflexivity.
Qed.

Lemma timer_idle_handle e s :
  timer_idle Quantity s ->
  timer_idle Quantity (handle Quantity Q_ m_as_ms e s).
Proof.
  intros H. destruct e; cbn [handle]; try exact H.
  - intros R. rewrite start_monitor_sets_running in R. discriminate.
  - destruct (running_monitor _ (window _ s)) eqn:R.
    + destruct s as [[o tm run wt dl xd yd pl] al cr out]. cbn in R. subst.
      unfold timer_idle, stop_monitor.
      cbv [bind Monad_PyM pbind get MonadState_PyM]. cbn.
      destruct wt; cbn; intros; reflexivity.
    + rewrite (stop_monitor_not_running _ s R). exact H.
  - unfold update_properties. cbv [bind Monad_PyM pbind].
    unfold update at 1. cbn [fst snd].
    destruct (getitem props "time_resolution"); exact H.
Qed.

Lemma reachable_timer_idle s :
  reachable Quantity Q_ m_as_ms s -> timer_idle Quantity s.
Proof.
  induction 1 as [o text | e s _ IH].
  - intros _. reflexivity.
  - apply timer_idle_handle, IH.
Qed.

(** In every reachable state in which the monitor is not running, no
    worker thread is alive and the update timer is inactive: the plot is
    refreshed and the operator is driven only between a start and the
    next stop. *)
Theorem not_running_means_idle :
  forall s : Process Quantity,
    reachable Quantity Q_ m_as_ms s ->
    running_monitor _ (window _ s) = false ->
    alive _ s = [] /\ active (update_timer _ (window _ s)) = false.
Proof.
  intros s Hs R. split.
  - destruct (reachable_one_worker _ _ _ s Hs) as [H | [H _]];
      [exact H | congruence].
  - apply (reachable_timer_idle s Hs R).
Qed.

(** A start that finds the monitor stopped and whose texts parse starts
    one worker and the timer with the refresh time in milliseconds, and
    stores the parsed delay; the stop that follows ends that worker,
    stops the timer and clears the running flag. *)
Theorem start_then_stop :
  forall (s : Process Quantity) delay props text refresh_time ms,
    reachable Quantity Q_ m_as_ms s ->
    running_monitor _ (window _ s) = false ->
    Q_ (delayLine _ (window _ s)) = Gives delay ->
    properties_Monitor _ (operator _ (window _ s)) = Some props ->
    getitem props "refresh_time" = Gives text ->
    Q_ text = Gives refresh_time ->
    m_as_ms refresh_time = Gives ms ->
    let r1 := start_monitor Quantity Q_ m_as_ms s in
    let r2 := stop_monitor Quantity (snd r1) in
    fst r1 = Val tt
    /\ running_monitor _ (window _ (snd r1)) = true
    /\ alive _ (snd r1) = [created _ s]
    /\ worker_thread _ (window _ (snd r1)) = Some (created _ s)
    /\ update_timer _ (window _ (snd r1)) = mkTimer true ms
    /\ properties_time_resolution _ (operator _ (window _ (snd r1)))
       = Some delay
    /\ fst r2 = Val tt
    /\ running_monitor _ (window _ (snd r2)) = false
    /\ alive _ (snd r2) = []
    /\ update_timer _ (window _ (snd r2)) = mkTimer false ms.
Proof.
  intros s delay props text refresh_time ms Hs R Hd Hp Ht Hr Hm.
  assert (Ha : alive _ s = []).
  { destruct (reachable_one_worker _ _ _ s Hs) as [H | [H _]];
      [exact H | congruence]. }
  destruct s as [[o tm run wt dl xd yd pl] al cr out].
  cbn in R, Hd, Hp, Ha. subst run al.
  assert (E1 : start_monitor Quantity Q_ m_as_ms
                 (mkProcess _ (mkWindow _ o tm false wt dl xd yd pl) [] cr out)
               = (Val tt,
                  mkProcess _
                    (mkWindow _ (set_time_resolution _ delay o)
                              (mkTimer true ms) true (Some cr) dl xd yd pl)
                    [cr] (S cr) out)).
  { unfold start_monitor.
    cbv [bind Monad_PyM pbind get MonadState_PyM]. cbn.
    rewrite Hd. cbn. rewrite Hp. cbn. rewrite Ht. cbn.
    rewrite Hr. cbn. rewrite Hm. reflexivity. }
  cbv zeta. rewrite E1. cbn [fst snd].
  unfold stop_monitor. cbv [bind Monad_PyM pbind get MonadState_PyM]. cbn.
  rewrite Nat.eqb_refl. cbn. repeat split.
Qed.

(** The running flag is set before the delay text is parsed.  When a
    start on a window that never had a worker fails to parse it, the
    start raises and leaves the monitor marked as running with no worker
    and no timer; from then on no click changes that: a start only
    reports that the monitor runs already, and a stop raises
    [AttributeError] for the missing [worker_thread] before it clears the
    flag. *)
Theorem failed_start_leaves_monitor_stuck :
  forall (s : Process Quantity) e clicks,
    reachable Quantity Q_ m_as_ms s ->
    running_monitor _ (window _ s) = false ->
    worker_thread _ (window _ s) = None ->
    Q_ (delayLine _ (window _ s)) = Throws e ->
    Forall is_click clicks ->
    let s' := after Quantity Q_ m_as_ms clicks
                (snd (start_monitor Quantity Q_ m_as_ms s)) in
    fst (start_monitor Quantity Q_ m_as_ms s) = Exn e
    /\ stuck Quantity s'
    /\ fst (stop_monitor Quantity s') = Exn (AttributeError "worker_thread")
    /\ stuck Quantity (snd (stop_monitor Quantity s'))
    /\ fst (start_monitor Quantity Q_ m_as_ms s') = Val tt
    /\ stuck Quantity (snd (start_monitor Quantity Q_ m_as_ms s')).
Proof.
  intros s e clicks Hs R Hw He Hclicks.
  assert (Hstop : forall t, stuck Quantity t ->
            fst (stop_monitor Quantity t) = Exn (AttributeError "worker_thread")
            /\ stuck Quantity (snd (stop_monitor Quantity t))).
  { intros [[o tm run wt dl xd yd pl] al cr out] (H1 & H2 & H3 & H4).
    cbn in H1, H2, H3, H4. subst. unfold stop_monitor, stuck.
    cbv [bind Monad_PyM pbind get MonadState_PyM]. cbn. repeat split. }
  assert (Hstart : forall t, stuck Quantity t ->
            fst (start_monitor Quantity Q_ m_as_ms t) = Val tt
            /\ stuck Quantity (snd (start_monitor Quantity Q_ m_as_ms t))).
  { intros t Ht. pose proof Ht as (H1 & _).
    rewrite (start_monitor_running _ _ _ t H1). split; [reflexivity|].
    exact Ht. }
  assert (Hfirst : fst (start_monitor Quantity Q_ m_as_ms s) = Exn e
                   /\ stuck Quantity (snd (start_monitor Quantity Q_ m_as_ms s))).
  { destruct (reachable_one_worker _ _ _ s Hs) as [Ha | [H _]];
      [|congruence].
    pose proof (reachable_timer_idle s Hs R) as Hi.
    destruct s as [[o tm run wt dl xd yd pl] al cr out].
    cbn in R, Hw, He, Ha, Hi. subst. unfold start_monitor, stuck.
    cbv [bind Monad_PyM pbind get MonadState_PyM]. cbn.
    rewrite He. cbn. repeat split. exact Hi. }
  destruct Hfirst as [Hexn Hstuck].
  assert (Hafter : forall t, stuck Quantity t ->
            stuck Quantity (after Quantity Q_ m_as_ms clicks t)).
  { clear -Hclicks Hstop Hstart. unfold after.
    induction Hclicks as [|c clicks Hc _ IH]; intros t Ht; [exact Ht|].
    cbn [fold_left]. apply IH.
    destruct Hc as [-> | ->]; cbn [handle];
      [apply Hstart | apply Hstop]; exact Ht. }
  cbv zeta. split; [exact Hexn|]. split; [apply Hafter, Hstuck|].
  destruct (Hstop _ (Hafter _ Hstuck)) as [A B].
  destruct (Hstart _ (Hafter _ Hstuck)) as [C D].
  split; [exact A|]. split; [exact B|]. split; [exact C | exact D].
Qed.

(** Dictionary lookup fails exactly on a missing key. *)
Lemma getitem_missing d key :
  (forall v, ~ In (key, v) d) -> getitem d key = Throws (KeyError key).
Proof.
  induction d as [|[k v] d IH]; intros H; [reflexivity|].
  cbn [getitem]. destruct (String.eqb_spec k key) as [->|Hne].
  - exfalso. apply (H v). left. reflexivity.
  - apply IH. intros v' Hv'. apply (H v'). right. exact Hv'.
Qed.

(** [update_properties] stores the new properties before it reads
    ['time_resolution'] from them: when that key is missing it raises
    [KeyError], the operator already holds the new properties and the
    delay field keeps its text. *)
Theorem update_properties_missing_key :
  forall (props : list (string * string)) (s : Process Quantity),
    (forall v, ~ In ("time_resolution"%string, v) props) ->
    let r := update_properties Quantity props s in
    fst r = Exn (KeyError "time_resolution")
    /\ properties_Monitor _ (operator _ (window _ (snd r))) = Some props
    /\ delayLine _ (window _ (snd r)) = delayLine _ (window _ s)
    /\ running_monitor _ (window _ (snd r)) = running_monitor _ (window _ s)
    /\ alive _ (snd r) = alive _ s.
Proof.
  intros props s H. cbv zeta.
  assert (E : update_properties Quantity props s
              = (Exn (KeyError "time_resolution"),
                 set_window _
                   (fun w => set_operator _
                               (set_Monitor _ props (operator _ w)) w) s)).
  { unfold update_properties. cbv [bind Monad_PyM pbind].
    unfold update at 1. cbn [fst snd].
    rewrite (getitem_missing props _ H). reflexivity. }
  rewrite E. repeat split.
Qed.

End Window.

Lemma start_then_stop_witness :
  let Q_ := fun _ : string => Gives 100%Q in
  let m_as_ms := fun q : Q => Gives q in
  let o := mkOperator Q (Some [("refresh_time", "100ms")]%string) None [] [] in
  alive _ (snd (stop_monitor Q
                  (snd (start_monitor Q Q_ m_as_ms (init Q o "10ms"))))) = [].
Proof.
  cbv zeta.
  destruct (start_then_stop Q (fun _ : string => Gives 100%Q)
              (fun q : Q => Gives q)
              (init Q (mkOperator Q (Some [("refresh_time", "100ms")]%string)
                                  None [] []) "10ms")
              100%Q [("refresh_time", "100ms")]%string "100ms"%string
              100%Q 100%Q)
    as (_ & _ & _ & _ & _ & _ & _ & _ & H & _).
  - apply reach_init.
  - reflexivity.
  - reflexivity.
  - reflexivity.
  - reflexivity.
  - reflexivity.
  - reflexivity.
  - exact H.
Defined.

Lemma failed_start_leaves_monitor_stuck_witness :
  let Q_ := fun _ : string => @Throws Q (OtherError "UndefinedUnitError") in
  let m_as_ms := fun q : Q => Gives q in
  let o := mkOperator Q (Some [("refresh_time", "100ms")]%string) None [] [] in
  stuck Q (after Q Q_ m_as_ms [StopClicked; StartClicked; StopClicked]
             (snd (start_monitor Q Q_ m_as_ms (init Q o "ten")))).
Proof.
  cbv zeta.
  destruct (failed_start_leaves_monitor_stuck Q
              (fun _ : string => @Throws Q (OtherError "UndefinedUnitError"))
              (fun q : Q => Gives q)
              (init Q (mkOperator Q (Some [("refresh_time", "100ms")]%string)
                                  None [] []) "ten")
              (OtherError "UndefinedUnitError")
              [StopClicked; StartClicked; StopClicked])
    as (_ & H & _).
  - apply reach_init.
  - reflexivity.
  - reflexivity.
  - reflexivity.
  - repeat constructor; (left; reflexivity) || (right; reflexivity).
  - exact H.
Defined.

Lemma update_properties_missing_key_witness :
  fst (update_properties Q [("refresh_time", "100ms")]%string
         (init Q (mkOperator Q None None [] []) "10ms"))
  = Exn (KeyError "time_resolution").
Proof.
  destruct (update_properties_missing_key Q
              [("refresh_time", "100ms")]%string
              (init Q (mkOperator Q None None [] []) "10ms")) as [H _].
  - intros v [Hv|[]]. discriminate Hv.
  - exact H.
Defined.

Lemma not_running_means_idle_witness :
  let Q_ := fun _ : string => Gives 100%Q in
  let m_as_ms := fun q : Q => Gives q in
  let o := mkOperator Q (Some [("refresh_time", "100ms")]%string) None [] [] in
  let s := handle Q Q_ m_as_ms (StopClicked)
             (handle Q Q_ m_as_ms (StartClicked) (init Q o "10ms")) in
  alive _ s = [] /\ active (update_timer _ (window _ s)) = false.
Proof.
  cbv zeta.
  apply (not_running_means_idle Q (fun _ : string => Gives 100%Q)
           (fun q : Q => Gives q)).
  - repeat apply reach_step. apply reach_init.
  - reflexivity.
Defined.

End MonitorFacts.
